(** * Ruuvi Gateway (no-auth) integration: fetch, decode and diff pipeline

    A shallow embedding of [custom_components/ruuvigateway_noauth]:
    - [api.py]: [TagData], [HistoryResponse], [async_get_gateway_history_data];
    - [config_flow.py]: the token normalisation of [_async_validate];
    - [coordinator.py]: [RuuviGatewayUpdateCoordinator._async_update_data].

    Python exceptions are values of [exn]; a call that may raise returns a
    [result].  The gateway and the HTTP client library are an oracle
    ([session]) that maps the request to what [session.get] and
    [response.json] do.  [last_tag_datas] is a finite map threaded through
    the poll cycle. *)

From Stdlib Require Import ZArith String Ascii Strings.Byte List Lia.
From Stdlib Require Import Floats.SpecFloat DecimalString.
From stdpp Require Import gmap strings list.

Local Open Scope Z_scope.
#[local] Set Warnings "-register-all".

(** ** Python values and built-ins used by the integration *)

Module Py.

(** Exception classes that the code raises, catches or lets through.  An
    exception of a subclass is represented by the first of these classes
    that an [except] clause of [async_get_gateway_history_data] would
    match ([json.JSONDecodeError] is a [ValueError], aiohttp's
    [ServerTimeoutError] a [TimeoutError], and so on). *)
Inductive exn : Type :=
| InvalidAuth
| CannotConnect (msg : string)
| TimeoutError
| ClientError
| KeyError
| ValueError
| TypeError
| OverflowError
| AttributeError
| OtherException.

Inductive result (A : Type) : Type :=
| Raise (e : exn)
| Return (a : A).
Arguments Raise {A} e.
Arguments Return {A} a.

Definition bind {A B} (r : result A) (k : A -> result B) : result B :=
  match r with
  | Raise e => Raise e
  | Return a => k a
  end.

Notation "'let?' x ':=' r 'in' k" := (bind r (fun x => k))
  (at level 10, x name, r at level 100, k at level 200).

(** The objects [json.loads] builds.  Strings are sequences of code points
    below 256.  [JObject ms] lists the members of a JSON object in
    document order; the [dict] it denotes is [dict_of_members ms]. *)
Inductive json : Type :=
| JNull
| JBool (b : bool)
| JInt (z : Z)
| JFloat (f : spec_float)
| JString (s : string)
| JArray (l : list json)
| JObject (ms : list (string * json)).

Definition bytes := list byte.

#[global] Instance byte_eq_dec : EqDecision byte := Byte.byte_eq_dec.

(** *** dict *)

(** [d[k] = v] on an insertion-ordered dict: an existing key keeps its
    position, a new key goes last. *)
Fixpoint dict_setitem (d : list (string * json)) (k : string) (v : json)
  : list (string * json) :=
  match d with
  | [] => [(k, v)]
  | (k', v') :: d' =>
      if String.eqb k' k then (k', v) :: d'
      else (k', v') :: dict_setitem d' k v
  end.

Definition dict_of_members (ms : list (string * json)) : list (string * json) :=
  fold_left (fun d kv => dict_setitem d (fst kv) (snd kv)) ms [].

Fixpoint assoc (d : list (string * json)) (k : string) : option json :=
  match d with
  | [] => None
  | (k', v) :: d' => if String.eqb k' k then Some v else assoc d' k
  end.

(** [o[k]] for a string [k]: [KeyError] on a dict without [k]; [TypeError]
    on anything that is not a dict (lists and strings want integer
    indices, the rest is not subscriptable). *)
Definition getitem (o : json) (k : string) : result json :=
  match o with
  | JObject ms =>
      match assoc (dict_of_members ms) k with
      | Some v => Return v
      | None => Raise KeyError
      end
  | _ => Raise TypeError
  end.

(** [o.get(k, default)]: only a dict has the attribute. *)
Definition get (o : json) (k : string) (default : json) : result json :=
  match o with
  | JObject ms =>
      match assoc (dict_of_members ms) k with
      | Some v => Return v
      | None => Return default
      end
  | _ => Raise AttributeError
  end.

(** [o.items()]: only a dict has the attribute. *)
Definition items (o : json) : result (list (string * json)) :=
  match o with
  | JObject ms => Return (dict_of_members ms)
  | _ => Raise AttributeError
  end.

(** A list comprehension whose element expression may raise: elements are
    evaluated in order and the first exception ends the comprehension. *)
Fixpoint comprehension {A B} (f : A -> result B) (l : list A) : result (list B) :=
  match l with
  | [] => Return []
  | a :: l' =>
      let? b := f a in
      let? bs := comprehension f l' in
      Return (b :: bs)
  end.

(** *** Characters *)

Definition code (c : ascii) : N := N_of_ascii c.

Definition in_range (lo hi : N) (c : ascii) : bool :=
  ((lo <=? code c) && (code c <=? hi))%N.

(** [Py_ISSPACE]: space, \t, \n, \v, \f, \r. *)
Definition Py_ISSPACE (c : ascii) : bool :=
  in_range 9 13 c || (code c =? 32)%N.

(** [Py_UNICODE_ISSPACE] below 256: adds the separators 0x1c-0x1f, NEL
    and the no-break space. *)
Definition Py_UNICODE_ISSPACE (c : ascii) : bool :=
  in_range 9 13 c || in_range 28 32 c || (code c =? 133)%N || (code c =? 160)%N.

Definition decimal_digit (c : ascii) : option Z :=
  if in_range 48 57 c then Some (Z.of_N (code c) - 48) else None.

(** [_PyLong_DigitValue] restricted to base 16. *)
Definition hex_digit (c : ascii) : option N :=
  if in_range 48 57 c then Some (code c - 48)%N
  else if in_range 97 102 c then Some (code c - 87)%N
  else if in_range 65 70 c then Some (code c - 55)%N
  else None.

(** *** str.strip() *)

(** Dropping the leading, or trailing, characters that [space] holds of. *)
Fixpoint lstrip (space : ascii -> bool) (s : list ascii) : list ascii :=
  match s with
  | c :: s' => if space c then lstrip space s' else s
  | [] => []
  end.

Definition rstrip (space : ascii -> bool) (s : list ascii) : list ascii :=
  rev (lstrip space (rev s)).

Definition strip (s : string) : string :=
  string_of_list_ascii
    (rstrip Py_UNICODE_ISSPACE
       (lstrip Py_UNICODE_ISSPACE (list_ascii_of_string s))).

(** *** str(int), as an f-string formats an [int] *)

Definition str_of_int (z : Z) : string := NilZero.string_of_int (Z.to_int z).

(** *** int(x) *)

(** [sys.get_int_max_str_digits()], at its default. *)
Definition int_max_str_digits : nat := 4300.

(** The digits of a base-10 literal: single underscores are allowed
    between digits only.  [prev_us] tells that the previous character was
    an underscore; [n] counts the digits. *)
Fixpoint scan_digits (prev_us : bool) (acc : Z) (n : nat) (s : list ascii)
  : option (Z * nat) :=
  match s with
  | [] => if prev_us then None else Some (acc, n)
  | c :: s' =>
      if Ascii.eqb c "_" then
        if prev_us then None else scan_digits true acc n s'
      else
        match decimal_digit c with
        | Some d => scan_digits false (10 * acc + d) (S n) s'
        | None => None
        end
  end.

Definition unsigned_literal (s : list ascii) : option Z :=
  match s with
  | [] => None
  | c :: _ =>
      if Ascii.eqb c "_" then None
      else
        match scan_digits false 0 0 s with
        | Some (z, n) => if (n <=? int_max_str_digits)%nat then Some z else None
        | None => None
        end
  end.

(** The whitespace that [int()] skips around a literal: [Py_ISSPACE], and
    the non-ASCII spaces (below 256: NEL and the no-break space), which it
    turns into blanks first.  The separators 0x1c-0x1f are not skipped. *)
Definition int_space (c : ascii) : bool :=
  Py_ISSPACE c || (code c =? 133)%N || (code c =? 160)%N.

(** [int(s)] for a [str]: surrounding whitespace is dropped, then an
    optional sign and a base-10 literal must fill the string. *)
Definition int_of_str (s : string) : result Z :=
  let body := rstrip int_space (lstrip int_space (list_ascii_of_string s)) in
  let signed :=
    match body with
    | c :: rest =>
        if Ascii.eqb c "-" then option_map Z.opp (unsigned_literal rest)
        else if Ascii.eqb c "+" then unsigned_literal rest
        else unsigned_literal body
    | [] => None
    end in
  match signed with
  | Some z => Return z
  | None => Raise ValueError
  end.

(** [int(f)] for a [float]: truncation towards zero; NaN and the
    infinities have no integer value. *)
Definition int_of_float (f : spec_float) : result Z :=
  match f with
  | S754_zero _ => Return 0
  | S754_infinity _ => Raise OverflowError
  | S754_nan => Raise ValueError
  | S754_finite s m e =>
      let mag := if 0 <=? e then Z.pos m * 2 ^ e else Z.pos m / 2 ^ (- e) in
      Return (if s then - mag else mag)
  end.

Definition int (o : json) : result Z :=
  match o with
  | JInt z => Return z
  | JBool b => Return (if b then 1 else 0)
  | JFloat f => int_of_float f
  | JString s => int_of_str s
  | JNull | JArray _ | JObject _ => Raise TypeError
  end.

(** Truth value of an [int | None], as [if response_timestamp] tests it. *)
Definition truthy_int (o : option Z) : bool :=
  match o with
  | Some z => negb (z =? 0)
  | None => false
  end.

(** Truth value of a [str | None], as [if bearer_token] tests it. *)
Definition truthy_str (o : option string) : bool :=
  match o with
  | Some s => negb (String.eqb s "")
  | None => false
  end.

(** *** bytes.fromhex(x) *)

(** Runs of [Py_ISSPACE] characters are skipped before each pair of hex
    digits; the two digits of a pair are adjacent.  A character of a
    non-ASCII string is neither a space nor a digit, so such a string is
    rejected here as CPython rejects it up front. *)
Fixpoint fromhex_chars (s : list ascii) : option bytes :=
  match s with
  | [] => Some []
  | c :: s' =>
      if Py_ISSPACE c then fromhex_chars s'
      else
        match hex_digit c, s' with
        | Some top, d :: s'' =>
            match hex_digit d with
            | Some bot =>
                option_map (cons (byte_of_ascii (ascii_of_N (16 * top + bot))))
                           (fromhex_chars s'')
            | None => None
            end
        | _, _ => None
        end
  end.

Definition fromhex (o : json) : result bytes :=
  match o with
  | JString s =>
      match fromhex_chars (list_ascii_of_string s) with
      | Some b => Return b
      | None => Raise ValueError
      end
  | _ => Raise TypeError
  end.

(** *** bytes.hex() *)

(** The lower-case hex digit of a value below 16. *)
Definition hex_char (n : N) : ascii :=
  if (n <? 10)%N then ascii_of_N (48 + n) else ascii_of_N (87 + n).

Definition hex_of_byte (b : byte) : list ascii :=
  [hex_char (Byte.to_N b / 16); hex_char (Byte.to_N b mod 16)].

(** [b.hex()]: two lower-case hex digits for each byte. *)
Definition bytes_hex (b : bytes) : string :=
  string_of_list_ascii (flat_map hex_of_byte b).

(** *** str.upper() and slicing *)

(** A [str] that may hold code points of 256 and above. *)
Definition ustr : Type := list N.

Definition codes (s : string) : ustr := map code (list_ascii_of_string s).

(** The upper case of one code point below 256, the code points that the
    strings of this model hold.  Two of them leave the range (the micro
    sign and y with diaeresis) and the sharp s becomes two letters. *)
Definition upper_char (c : ascii) : ustr :=
  if in_range 97 122 c then [(code c - 32)%N]
  else if (code c =? 181)%N then [924%N]
  else if (code c =? 223)%N then [83%N; 83%N]
  else if (code c =? 247)%N then [code c]
  else if in_range 224 254 c then [(code c - 32)%N]
  else if (code c =? 255)%N then [376%N]
  else [code c].

Definition upper (s : list ascii) : ustr := flat_map upper_char s.

(** [s[-n:]] for a positive [n]: the last [n] characters, or all of [s]
    when it has fewer. *)
Definition last_chars (n : nat) (s : list ascii) : list ascii :=
  skipn (length s - n) s.

End Py.

(** ** api.py *)

Module TagData.
Import Py.

Record t : Type := make {
  mac : string;
  rssi : Z;
  timestamp : Z;
  data : bytes;
  age_seconds : option Z
}.

Definition from_gateway_history_json_tag
    (mac : string) (payload : json) (response_timestamp : option Z) : result t :=
  let? timestamp_field := getitem payload "timestamp" in
  let? tag_timestamp := int timestamp_field in
  let age_seconds :=
    if truthy_int response_timestamp
    then option_map (fun rt => rt - tag_timestamp) response_timestamp
    else None in
  let? rssi_field := getitem payload "rssi" in
  let? rssi := int rssi_field in
  let? data_field := getitem payload "data" in
  let? data := fromhex data_field in
  Return (make mac rssi tag_timestamp data age_seconds).

End TagData.

Module HistoryResponse.
Import Py.

(** [gw_mac] and [coordinates] are stored as the body has them, whatever
    their type. *)
Record t : Type := make {
  timestamp : Z;
  gw_mac : json;
  tags : list TagData.t;
  coordinates : json
}.

Definition from_gateway_history_json (data : json) : result t :=
  let? payload := getitem data "data" in
  let? timestamp_field := getitem payload "timestamp" in
  let? response_timestamp := int timestamp_field in
  let? tags_field := get payload "tags" (JObject []) in
  let? entries := items tags_field in
  let? tags :=
    comprehension
      (fun entry =>
         TagData.from_gateway_history_json_tag
           (fst entry) (snd entry) (Some response_timestamp))
      entries in
  let? gw_mac := getitem payload "gw_mac" in
  let? coordinates := get payload "coordinates" (JString "") in
  Return (make response_timestamp gw_mac tags coordinates).

(** [self.gw_mac[-5:].upper()].  Of the objects that are not strings, a
    list is sliced and then has no [upper]; a dict is asked for the slice
    as a key, a [KeyError] since Python 3.12, the oldest version that the
    Home Assistant releases with the imports of config_flow.py run on
    (earlier versions raise [TypeError]: the slice is not hashable); the
    rest is not subscriptable. *)
Definition gw_mac_suffix (self : t) : result ustr :=
  match gw_mac self with
  | JString s => Return (upper (last_chars 5 (list_ascii_of_string s)))
  | JArray _ => Raise AttributeError
  | JObject _ => Raise KeyError
  | JNull | JBool _ | JInt _ | JFloat _ => Raise TypeError
  end.

End HistoryResponse.

Module Api.
Import Py.

(** [ClientTimeout(total=timeout)]. *)
Record ClientTimeout : Type := { total : spec_float }.

(** The arguments of [session.get]. *)
Record request : Type := {
  url : string;
  headers : option (list (string * string));
  timeout : option ClientTimeout
}.

(** What the client library does with a request: [session.get] raises, or
    a response arrives with a [status] and [body], the outcome of
    [await response.json(content_type=None)] on it. *)
Inductive get_outcome : Type :=
| GetRaises (e : exn)
| Response (status : Z) (body : result json).

Definition session : Type := request -> get_outcome.

Definition history_request
    (host : string) (bearer_token : option string) (timeout : option spec_float)
  : request :=
  {| url := "http://" +:+ host +:+ "/history";
     headers :=
       if truthy_str bearer_token
       then option_map
              (fun token => [("Authorization"%string, "Bearer " +:+ token)])
              bearer_token
       else None;
     timeout := option_map Build_ClientTimeout timeout |}.

(** The body of the [try] statement. *)
Definition try_body (s : session) (req : request) : result json :=
  match s req with
  | GetRaises e => Raise e
  | Response status body =>
      if status =? 401 then Raise InvalidAuth
      else if negb (status =? 200) then
        Raise (CannotConnect
                 ("Unexpected response from gateway: HTTP " +:+ str_of_int status))
      else body
  end.

(** The [except] clauses, in order; an exception that none matches
    propagates as it is. *)
Definition except_clauses (e : exn) : exn :=
  match e with
  | InvalidAuth => InvalidAuth
  | TimeoutError => CannotConnect "Timeout communicating with gateway"
  | ClientError => CannotConnect "Error communicating with gateway"
  | KeyError | ValueError | TypeError =>
      CannotConnect "Invalid response from gateway"
  | CannotConnect _ | OverflowError | AttributeError | OtherException => e
  end.

Definition async_get_gateway_history_data
    (s : session) (host : string) (bearer_token : option string)
    (timeout : option spec_float) : result HistoryResponse.t :=
  match try_body s (history_request host bearer_token timeout) with
  | Raise e => Raise (except_clauses e)
  | Return data => HistoryResponse.from_gateway_history_json data
  end.

End Api.

(** ** config_flow.py *)

Module ConfigFlow.
Import Py.

(** [user_input] as the form delivers it: the host, and the object under
    [CONF_TOKEN] when there is one. *)
Record user_input : Type := {
  CONF_HOST : string;
  CONF_TOKEN : option json
}.

(** The token that [_async_validate] hands to the fetch. *)
Definition token_of_input (token_input : option json) : option string :=
  match token_input with
  | Some (JString s) =>
      let token := strip s in
      if String.eqb token "" then None else Some token
  | _ => None
  end.

(** The request that [_async_validate] has the fetch send. *)
Definition _async_validate_request (input : user_input) : Api.request :=
  Api.history_request (CONF_HOST input) (token_of_input (CONF_TOKEN input)) None.

Definition _async_validate_fetch (s : Api.session) (input : user_input)
  : result HistoryResponse.t :=
  Api.async_get_gateway_history_data
    s (CONF_HOST input) (token_of_input (CONF_TOKEN input)) None.

(** The [errors] dict: empty, or one code under ["base"]. *)
Definition errors : Type := list (string * string).

(** [self.config_schema]: [CONFIG_SCHEMA], or
    [get_config_schema_with_default_host(host=...)]. *)
Inductive schema : Type :=
| CONFIG_SCHEMA
| get_config_schema_with_default_host (host : string).

(** [entry_data]: the host, and the token when there is one. *)
Record entry_data : Type := {
  data_host : string;
  data_token : option string
}.

Inductive ConfigFlowResult : Type :=
| async_create_entry (title : ustr) (data : entry_data)
| async_show_form (step_id : string) (data_schema : schema) (errors : option errors).

(** Home Assistant's part of [_async_validate]:
    [async_set_unique_id(format_mac(gw_mac), raise_on_progress=False)] and
    [_abort_if_unique_id_configured(updates={CONF_HOST: host})], which
    return or raise. *)
Definition unique_id_calls : Type := json -> string -> result unit.

(** The [except] clauses of [_async_validate]: the code that goes under
    ["base"]. *)
Definition except_clauses (e : exn) : string :=
  match e with
  | CannotConnect _ => "cannot_connect"
  | InvalidAuth => "invalid_auth"
  | _ => "unknown"
  end.

Definition _async_validate
    (ha : unique_id_calls) (s : Api.session) (input : user_input)
  : option ConfigFlowResult * errors :=
  let token := token_of_input (CONF_TOKEN input) in
  let attempt :=
    let? resp :=
      Api.async_get_gateway_history_data s (CONF_HOST input) token None in
    let? configured := ha (HistoryResponse.gw_mac resp) (CONF_HOST input) in
    let? suffix := HistoryResponse.gw_mac_suffix resp in
    Return
      (async_create_entry
         (codes "Ruuvi Gateway " ++ suffix)
         {| data_host := CONF_HOST input;
            data_token := if truthy_str token then token else None |}) in
  match attempt with
  | Return result => (Some result, [])
  | Raise e => (None, [("base"%string, except_clauses e)])
  end.

(** [errors or None]. *)
Definition or_None (errs : errors) : option errors :=
  match errs with
  | [] => None
  | _ :: _ => Some errs
  end.

Definition async_step_user
    (ha : unique_id_calls) (s : Api.session) (config_schema : schema)
    (input : option user_input) : ConfigFlowResult :=
  let validated :=
    match input with
    | Some user_input => _async_validate ha s user_input
    | None => (None, [])
    end in
  match fst validated with
  | Some result => result
  | None => async_show_form "user" config_schema (or_None (snd validated))
  end.

Record DhcpServiceInfo : Type := {
  macaddress : string;
  ip : string
}.

(** Home Assistant's part of [async_step_dhcp]:
    [async_set_unique_id(format_mac(macaddress))] and
    [_abort_if_unique_id_configured(updates={CONF_HOST: ip})]. *)
Definition dhcp_unique_id_calls : Type := string -> string -> result unit.

Definition async_step_dhcp
    (ha_dhcp : dhcp_unique_id_calls) (ha : unique_id_calls) (s : Api.session)
    (discovery_info : DhcpServiceInfo) : result ConfigFlowResult :=
  let? configured := ha_dhcp (macaddress discovery_info) (ip discovery_info) in
  Return
    (async_step_user
       ha s (get_config_schema_with_default_host (ip discovery_info)) None).

End ConfigFlow.

(** ** coordinator.py *)

Module Coordinator.
Import Py.

Record t : Type := make {
  host : string;
  token : option string;
  last_tag_datas : gmap string TagData.t
}.

(** [x or None] for a [str | None]. *)
Definition or_None (x : option string) : option string :=
  if truthy_str x then x else None.

Definition __init__ (entry_host : string) (entry_token : option string) : t :=
  {| host := entry_host;
     token := or_None entry_token;
     last_tag_datas := ∅ |}.

(** The condition of the [if] in the loop. *)
Definition is_changed (last : gmap string TagData.t) (tag : TagData.t) : bool :=
  match last !! TagData.mac tag with
  | None => true
  | Some cached => negb (bool_decide (TagData.data cached = TagData.data tag))
  end.

(** [self.last_tag_datas[tag.mac] = tag]. *)
Definition store (last : gmap string TagData.t) (tag : TagData.t)
  : gmap string TagData.t :=
  <[TagData.mac tag := tag]> last.

(** One iteration of [for tag in data.tags], on the pair
    [(changed_tag_datas, self.last_tag_datas)]. *)
Definition loop_body
    (st : list TagData.t * gmap string TagData.t) (tag : TagData.t)
  : list TagData.t * gmap string TagData.t :=
  if is_changed (snd st) tag
  then (fst st ++ [tag], store (snd st) tag)
  else st.

Definition loop (tags : list TagData.t) (last : gmap string TagData.t)
  : list TagData.t * gmap string TagData.t :=
  fold_left loop_body tags ([], last).

(** One poll: the value returned or the exception raised, and the
    coordinator afterwards. *)
Definition _async_update_data (s : Api.session) (self : t)
  : result (list TagData.t) * t :=
  match Api.async_get_gateway_history_data s (host self) (token self) None with
  | Raise e => (Raise e, self)
  | Return data =>
      let st := loop (HistoryResponse.tags data) (last_tag_datas self) in
      (Return (fst st),
       {| host := host self; token := token self; last_tag_datas := snd st |})
  end.

(** The polls that the update coordinator runs one after the other, each
    against what the gateway does at that time: what each returned or
    raised, and the coordinator in the end. *)
Fixpoint polls (ss : list Api.session) (self : t)
  : list (result (list TagData.t)) * t :=
  match ss with
  | [] => ([], self)
  | s :: ss' =>
      let polled := _async_update_data s self in
      let rest := polls ss' (snd polled) in
      (fst polled :: fst rest, snd rest)
  end.

End Coordinator.

(** ** Vocabulary of the properties *)

Module Terms.
Import Py.

(** The entries of the [tags] mapping of a response body: those of
    [body["data"]["tags"]] when the three are dicts, none otherwise. *)
Definition tags_of (body : json) : list (string * json) :=
  match body with
  | JObject top =>
      match assoc (dict_of_members top) "data" with
      | Some (JObject payload) =>
          match assoc (dict_of_members payload) "tags" with
          | Some (JObject ms) => dict_of_members ms
          | _ => []
          end
      | _ => []
      end
  | _ => []
  end.

(** The field [k] of a [tags] entry, if the entry has it. *)
Definition field (entry : json) (k : string) : option json :=
  match entry with
  | JObject ms => assoc (dict_of_members ms) k
  | _ => None
  end.

(** A [timestamp] or [rssi] is numeric when [int()] has a value for it. *)
Definition non_numeric (v : json) : Prop := forall z, int v <> Return z.

(** A [data] is hex when [bytes.fromhex] has a value for it. *)
Definition non_hex (v : json) : Prop := forall b, fromhex v <> Return b.

Inductive malformed (entry : json) : Prop :=
| missing_field k :
    In k ["timestamp"; "rssi"; "data"]%string ->
    field entry k = None -> malformed entry
| non_hex_data v :
    field entry "data" = Some v -> non_hex v -> malformed entry
| non_numeric_field k v :
    In k ["timestamp"; "rssi"]%string ->
    field entry k = Some v -> non_numeric v -> malformed entry.

(** The exceptions that decoding a body lets escape from
    [async_get_gateway_history_data]; api.py has no class of its own for
    them. *)
Definition decode_error (e : exn) : Prop :=
  e = KeyError \/ e = ValueError \/ e = TypeError \/ e = OverflowError.

(** Characters by kind. *)
Definition is_hex_digit (c : ascii) : bool :=
  match hex_digit c with Some _ => true | None => false end.

Definition is_decimal_digit (c : ascii) : bool :=
  match decimal_digit c with Some _ => true | None => false end.

(** The characters that can occur in a string that [int()] converts. *)
Definition is_int_char (c : ascii) : bool :=
  is_decimal_digit c || Ascii.eqb c "_" || Ascii.eqb c "+" || Ascii.eqb c "-"
  || int_space c.

Definition hex_digits (s : string) : list ascii :=
  List.filter is_hex_digit (list_ascii_of_string s).

Definition all_space (s : string) : bool :=
  forallb Py_UNICODE_ISSPACE (list_ascii_of_string s).

(** The response of the specification's example. *)
Definition example_body : json :=
  JObject
    [("data"%string,
      JObject
        [("timestamp"%string, JInt 100);
         ("gw_mac"%string, JString "AA:BB:CC:DD:EE:FF");
         ("tags"%string,
          JObject
            [("11:22:33:44:55:66"%string,
              JObject
                [("rssi"%string, JInt (-70));
                 ("timestamp"%string, JInt 95);
                 ("data"%string, JString "0201060303aafe")])])])].

Definition example_tag : TagData.t :=
  {| TagData.mac := "11:22:33:44:55:66";
     TagData.rssi := -70;
     TagData.timestamp := 95;
     TagData.data := [x02; x01; x06; x03; x03; xaa; xfe]%byte;
     TagData.age_seconds := Some 5 |}.

Definition example_response : HistoryResponse.t :=
  {| HistoryResponse.timestamp := 100;
     HistoryResponse.gw_mac := JString "AA:BB:CC:DD:EE:FF";
     HistoryResponse.tags := [example_tag];
     HistoryResponse.coordinates := JString "" |}.

(** A body whose second entry has a [data] that is not hex. *)
Definition malformed_entry : json :=
  JObject
    [("rssi"%string, JInt (-61));
     ("timestamp"%string, JInt 97);
     ("data"%string, JString "zz")].

Definition malformed_body : json :=
  JObject
    [("data"%string,
      JObject
        [("timestamp"%string, JInt 100);
         ("gw_mac"%string, JString "AA:BB:CC:DD:EE:FF");
         ("tags"%string,
          JObject
            [("11:22:33:44:55:66"%string,
              JObject
                [("rssi"%string, JInt (-70));
                 ("timestamp"%string, JInt 95);
                 ("data"%string, JString "0201060303aafe")]);
             ("77:88:99:AA:BB:CC"%string, malformed_entry)])])].

(** A body whose only entry has the empty string as [data]. *)
Definition empty_data_entry : json :=
  JObject
    [("rssi"%string, JInt (-70));
     ("timestamp"%string, JInt 95);
     ("data"%string, JString "")].

Definition empty_data_body : json :=
  JObject
    [("data"%string,
      JObject
        [("timestamp"%string, JInt 100);
         ("gw_mac"%string, JString "AA:BB:CC:DD:EE:FF");
         ("tags"%string,
          JObject [("11:22:33:44:55:66"%string, empty_data_entry)])])].

Definition empty_data_tag : TagData.t :=
  {| TagData.mac := "11:22:33:44:55:66";
     TagData.rssi := -70;
     TagData.timestamp := 95;
     TagData.data := [];
     TagData.age_seconds := Some 5 |}.

(** An earlier sighting of the example's beacon: same payload, other
    [rssi], [timestamp] and [age_seconds]. *)
Definition earlier_tag : TagData.t :=
  {| TagData.mac := "11:22:33:44:55:66";
     TagData.rssi := -82;
     TagData.timestamp := 60;
     TagData.data := [x02; x01; x06; x03; x03; xaa; xfe]%byte;
     TagData.age_seconds := Some 3 |}.

(** A beacon that the example response does not mention. *)
Definition silent_tag : TagData.t :=
  {| TagData.mac := "DE:AD:BE:EF:00:01";
     TagData.rssi := -90;
     TagData.timestamp := 40;
     TagData.data := [xff]%byte;
     TagData.age_seconds := None |}.

Definition earlier_cache : gmap string TagData.t :=
  <["DE:AD:BE:EF:00:01"%string := silent_tag]>
    (<["11:22:33:44:55:66"%string := earlier_tag]> ∅).

Definition silent_cache : gmap string TagData.t :=
  <["DE:AD:BE:EF:00:01"%string := silent_tag]> ∅.

(** A coordinator that has seen the example's beacon and another one. *)
Definition earlier_coordinator : Coordinator.t :=
  {| Coordinator.host := "192.168.1.10";
     Coordinator.token := None;
     Coordinator.last_tag_datas := earlier_cache |}.

(** An entry that the built-ins accept although its fields are a
    boolean, a string spelling an integer and hex bytes set apart by a
    space. *)
Definition lenient_entry : json :=
  JObject
    [("rssi"%string, JBool true);
     ("timestamp"%string, JString " 9_5 ");
     ("data"%string, JString "0a 0B")].

(** A body whose only entry is [lenient_entry], and what the fetch makes
    of it. *)
Definition lenient_body : json :=
  JObject
    [("data"%string,
      JObject
        [("timestamp"%string, JInt 100);
         ("gw_mac"%string, JString "AA:BB:CC:DD:EE:FF");
         ("tags"%string,
          JObject [("11:22:33:44:55:66"%string, lenient_entry)])])].

Definition lenient_response : HistoryResponse.t :=
  {| HistoryResponse.timestamp := 100;
     HistoryResponse.gw_mac := JString "AA:BB:CC:DD:EE:FF";
     HistoryResponse.tags :=
       [{| TagData.mac := "11:22:33:44:55:66";
           TagData.rssi := 1;
           TagData.timestamp := 95;
           TagData.data := [x0a; x0b]%byte;
           TagData.age_seconds := Some 5 |}];
     HistoryResponse.coordinates := JString "" |}.

(** A JSON number. *)
Definition is_json_number (v : json) : bool :=
  match v with
  | JInt _ | JFloat _ => true
  | _ => false
  end.

(** A gateway that answers every request with status 200 and [body]. *)
Definition gateway_serving (body : json) : Api.session :=
  fun _ => Api.Response 200 (Return body).

(** A gateway that answers every request with [status] and [body]. *)
Definition gateway_answering (status : Z) (body : result json) : Api.session :=
  fun _ => Api.Response status body.

(** A gateway on which [session.get] raises [e]. *)
Definition gateway_raising (e : exn) : Api.session :=
  fun _ => Api.GetRaises e.

(** *** Vocabulary of the further properties *)

(** A body that decodes: [data] holds a dict with a [timestamp] that
    [int()] converts and a [gw_mac]; [tags] is absent, or a dict without a
    malformed entry. *)
Definition well_formed_body (body : json) : Prop :=
  exists payload timestamp_field response_timestamp,
    field body "data" = Some payload /\
    field payload "timestamp" = Some timestamp_field /\
    int timestamp_field = Return response_timestamp /\
    (field payload "tags" = None \/
     exists ms,
       field payload "tags" = Some (JObject ms) /\
       forall mac entry, In (mac, entry) (dict_of_members ms) -> ~ malformed entry) /\
    field payload "gw_mac" <> None.

Definition is_dict (v : json) : bool :=
  match v with
  | JObject _ => true
  | _ => false
  end.

Definition is_ascii (c : ascii) : bool := (code c <? 128)%N.

Definition is_ascii_lower (c : ascii) : bool := in_range 97 122 c.

(** What a poll reported: the list it returned, nothing when it raised. *)
Definition report (r : result (list TagData.t)) : list TagData.t :=
  match r with
  | Return changed => changed
  | Raise _ => []
  end.

Definition reported (rs : list (result (list TagData.t))) : list TagData.t :=
  flat_map report rs.

Definition has_mac (k : string) (tag : TagData.t) : bool :=
  String.eqb (TagData.mac tag) k.

(** The last record of [l] with the mac [k]. *)
Definition most_recent (k : string) (l : list TagData.t) : option TagData.t :=
  List.find (has_mac k) (rev l).

(** Home Assistant finding the gateway new, and finding it configured. *)
Definition ha_accepts : ConfigFlow.unique_id_calls := fun _ _ => Return tt.


Definition example_input : ConfigFlow.user_input :=
  {| ConfigFlow.CONF_HOST := "192.168.1.10";
     ConfigFlow.CONF_TOKEN := Some (JString "  s3cret ") |}.

(** A body with [tags] set to null. *)
Definition null_tags_body : json :=
  JObject
    [("data"%string,
      JObject
        [("timestamp"%string, JInt 100);
         ("gw_mac"%string, JString "AA:BB:CC:DD:EE:FF");
         ("tags"%string, JNull)])].

(** A later response: the example's beacon with another payload, and a
    second beacon. *)
Definition later_body : json :=
  JObject
    [("data"%string,
      JObject
        [("timestamp"%string, JInt 110);
         ("gw_mac"%string, JString "AA:BB:CC:DD:EE:FF");
         ("tags"%string,
          JObject
            [("11:22:33:44:55:66"%string,
              JObject
                [("rssi"%string, JInt (-71));
                 ("timestamp"%string, JInt 108);
                 ("data"%string, JString "0201060303aaff")]);
             ("77:88:99:AA:BB:CC"%string,
              JObject
                [("rssi"%string, JInt (-55));
                 ("timestamp"%string, JInt 109);
                 ("data"%string, JString "ff")])])])].

Definition later_tag : TagData.t :=
  {| TagData.mac := "11:22:33:44:55:66";
     TagData.rssi := -71;
     TagData.timestamp := 108;
     TagData.data := [x02; x01; x06; x03; x03; xaa; xff]%byte;
     TagData.age_seconds := Some 2 |}.

Definition second_tag : TagData.t :=
  {| TagData.mac := "77:88:99:AA:BB:CC";
     TagData.rssi := -55;
     TagData.timestamp := 109;
     TagData.data := [xff]%byte;
     TagData.age_seconds := Some 1 |}.

Definition later_response : HistoryResponse.t :=
  {| HistoryResponse.timestamp := 110;
     HistoryResponse.gw_mac := JString "AA:BB:CC:DD:EE:FF";
     HistoryResponse.tags := [later_tag; second_tag];
     HistoryResponse.coordinates := JString "" |}.

(** [earlier_coordinator] after a poll that fetched [later_body]. *)
Definition later_coordinator : Coordinator.t :=
  {| Coordinator.host := "192.168.1.10";
     Coordinator.token := None;
     Coordinator.last_tag_datas :=
       <["77:88:99:AA:BB:CC"%string := second_tag]>
         (<["11:22:33:44:55:66"%string := later_tag]> earlier_cache) |}.

End Terms.

(** * Properties *)

Import Terms.

Import Py.

(** ** Dicts built by [json.loads] have pairwise distinct keys *)

Section DictFacts.

Lemma dict_setitem_keys_old d k v :
  k ∈ map fst d -> map fst (dict_setitem d k v) = map fst d.
Proof.
  induction d as [|[k' v'] d IH]; cbn [dict_setitem map fst]; intros Hin.
  - now apply elem_of_nil in Hin.
  - destruct (String.eqb_spec k' k) as [->|Hne]; [reflexivity|].
    cbn [map fst]. f_equal. apply IH.
    apply elem_of_cons in Hin as [->|Hin]; [contradiction | exact Hin].
Qed.

Lemma dict_setitem_keys_new d k v :
  k ∉ map fst d -> map fst (dict_setitem d k v) = map fst d ++ [k].
Proof.
  induction d as [|[k' v'] d IH]; cbn [dict_setitem map fst]; intros Hin.
  - reflexivity.
  - apply not_elem_of_cons in Hin as [Hne Hin].
    destruct (String.eqb_spec k' k) as [->|_]; [contradiction|].
    cbn [map fst app]. f_equal. now apply IH.
Qed.

Lemma dict_setitem_NoDup d k v :
  NoDup (map fst d) -> NoDup (map fst (dict_setitem d k v)).
Proof.
  intros Hd. destruct (decide (k ∈ map fst d)) as [Hin|Hin].
  - now rewrite dict_setitem_keys_old.
  - rewrite dict_setitem_keys_new by exact Hin.
    apply NoDup_app. repeat split.
    + exact Hd.
    + intros x Hx Hx'. apply list_elem_of_singleton in Hx'. now subst.
    + apply NoDup_singleton.
Qed.

Lemma fold_setitem_NoDup ms d :
  NoDup (map fst d) ->
  NoDup (map fst (fold_left (fun d kv => dict_setitem d (fst kv) (snd kv)) ms d)).
Proof.
  revert d. induction ms as [|[k v] ms IH]; intros d Hd; simpl; [exact Hd|].
  apply IH, dict_setitem_NoDup, Hd.
Qed.

Lemma dict_of_members_NoDup ms : NoDup (map fst (dict_of_members ms)).
Proof. apply fold_setitem_NoDup. constructor. Qed.

Lemma assoc_In d k v : assoc d k = Some v -> In (k, v) d.
Proof.
  induction d as [|[k' v'] d IH]; simpl; [discriminate|].
  destruct (String.eqb_spec k' k) as [->|Hne]; intros H.
  - injection H as ->. now left.
  - right. now apply IH.
Qed.

Lemma In_assoc d k v :
  NoDup (map fst d) -> In (k, v) d -> assoc d k = Some v.
Proof.
  induction d as [|[k' v'] d IH]; simpl; [tauto|].
  intros Hnd [Heq|Hin].
  - injection Heq as -> ->. now rewrite String.eqb_refl.
  - apply NoDup_cons in Hnd as [Hk' Hnd].
    destruct (String.eqb_spec k' k) as [->|Hne]; [|now apply IH].
    exfalso. apply Hk', list_elem_of_In.
    change k with (fst (k, v)). now apply in_map.
Qed.

End DictFacts.

(** ** Decoding *)

(** Inverts [H : (let? x := r in k) = Return v]. *)
Ltac bind_inv H :=
  match type of H with
  | bind ?r _ = Return _ =>
      let E := fresh "E" in
      destruct r eqn:E; cbn [bind] in H; [discriminate H|]
  end.

Section DecodeFacts.

Lemma comprehension_Return {A B} (f : A -> result B) l bs :
  comprehension f l = Return bs ->
  Forall2 (fun a b => f a = Return b) l bs.
Proof.
  revert bs. induction l as [|a l IH]; intros bs H; cbn [comprehension] in H.
  - injection H as <-. constructor.
  - bind_inv H. bind_inv H. injection H as <-. constructor; auto.
Qed.

Lemma comprehension_Raise {A B} (f : A -> result B) l a e :
  In a l -> f a = Raise e ->
  exists a' e', In a' l /\ f a' = Raise e' /\ comprehension f l = Raise e'.
Proof.
  induction l as [|x l IH]; intros Hin Hf; [destruct Hin|].
  cbn [comprehension]. destruct (f x) as [ex|b] eqn:Ex.
  - exists x, ex. cbn [bind]. auto with datatypes.
  - destruct Hin as [->|Hin]; [congruence|].
    destruct (IH Hin Hf) as (a' & e' & Hin' & Hf' & Hc).
    exists a', e'. rewrite Hc. cbn [bind]. auto with datatypes.
Qed.

(** What a constructed [TagData] says about the entry it came from. *)
Lemma from_gateway_history_json_tag_Return mac payload response_timestamp tag :
  TagData.from_gateway_history_json_tag mac payload response_timestamp = Return tag ->
  exists timestamp_field rssi_field data_field,
    getitem payload "timestamp" = Return timestamp_field /\
    getitem payload "rssi" = Return rssi_field /\
    getitem payload "data" = Return data_field /\
    int timestamp_field = Return (TagData.timestamp tag) /\
    int rssi_field = Return (TagData.rssi tag) /\
    fromhex data_field = Return (TagData.data tag) /\
    TagData.mac tag = mac /\
    TagData.age_seconds tag =
      (if truthy_int response_timestamp
       then option_map (fun rt => rt - TagData.timestamp tag) response_timestamp
       else None).
Proof.
  unfold TagData.from_gateway_history_json_tag. intros H.
  do 2 bind_inv H. cbv zeta in H. do 4 bind_inv H. injection H as <-.
  cbn [TagData.timestamp TagData.rssi TagData.data TagData.mac
       TagData.age_seconds].
  eauto 12.
Qed.

(** What a returned [HistoryResponse] says about the body it came from:
    its [tags] are the entries of the [tags] dict, decoded one by one, in
    the dict's order. *)
Lemma from_gateway_history_json_Return body r :
  HistoryResponse.from_gateway_history_json body = Return r ->
  exists payload timestamp_field tags_field entries,
    getitem body "data" = Return payload /\
    getitem payload "timestamp" = Return timestamp_field /\
    int timestamp_field = Return (HistoryResponse.timestamp r) /\
    get payload "tags" (JObject []) = Return tags_field /\
    items tags_field = Return entries /\
    NoDup (map fst entries) /\
    Forall2
      (fun entry tag =>
         TagData.from_gateway_history_json_tag
           (fst entry) (snd entry) (Some (HistoryResponse.timestamp r))
         = Return tag)
      entries (HistoryResponse.tags r).
Proof.
  unfold HistoryResponse.from_gateway_history_json. intros H.
  do 8 bind_inv H. injection H as <-.
  cbn [HistoryResponse.timestamp HistoryResponse.tags].
  exists a, a0, a2, a3. repeat split; auto.
  - destruct a2; try discriminate. injection E3 as <-.
    apply dict_of_members_NoDup.
  - now apply comprehension_Return.
Qed.

Lemma decoded_macs body r :
  HistoryResponse.from_gateway_history_json body = Return r ->
  NoDup (map TagData.mac (HistoryResponse.tags r)).
Proof.
  intros H.
  destruct (from_gateway_history_json_Return _ _ H)
    as (_ & _ & _ & entries & _ & _ & _ & _ & _ & Hnd & Hall).
  assert (Hmacs : map TagData.mac (HistoryResponse.tags r) = map fst entries).
  { clear Hnd. induction Hall as [|entry tag entries tags Htag _ IH];
      [reflexivity|].
    cbn [map]. f_equal; [|exact IH].
    destruct (from_gateway_history_json_tag_Return _ _ _ _ Htag)
      as (_ & _ & _ & _ & _ & _ & _ & _ & _ & Hmac & _).
    exact Hmac. }
  now rewrite Hmacs.
Qed.

End DecodeFacts.

(** ** The loop of [_async_update_data] *)

Section LoopFacts.

Import Coordinator.

Abbreviation cache := (gmap string TagData.t).

Lemma NoDup_map_inj_In {A B} (f : A -> B) (l : list A) x y :
  NoDup (map f l) -> In x l -> In y l -> f x = f y -> x = y.
Proof.
  induction l as [|a l IH]; cbn [map]; intros Hnd Hx Hy Hf; [destruct Hx|].
  apply NoDup_cons in Hnd as [Ha Hnd].
  destruct Hx as [->|Hx], Hy as [->|Hy]; auto.
  - exfalso. apply Ha, list_elem_of_In. rewrite Hf. now apply in_map.
  - exfalso. apply Ha, list_elem_of_In. rewrite <- Hf. now apply in_map.
Qed.

Lemma is_changed_true last tag :
  is_changed last tag = true <->
  last !! TagData.mac tag = None \/
  exists cached,
    last !! TagData.mac tag = Some cached /\
    TagData.data cached <> TagData.data tag.
Proof.
  unfold is_changed.
  destruct (last !! TagData.mac tag) as [cached|].
  - rewrite negb_true_iff, bool_decide_eq_false. split.
    + intros H. right. eauto.
    + intros [H|(c & Hc & Hd)]; [discriminate | congruence].
  - split; auto.
Qed.

Lemma is_changed_false last tag :
  is_changed last tag = false <->
  exists cached,
    last !! TagData.mac tag = Some cached /\
    TagData.data cached = TagData.data tag.
Proof.
  unfold is_changed.
  destruct (last !! TagData.mac tag) as [cached|].
  - rewrite negb_false_iff, bool_decide_eq_true. split.
    + eauto.
    + intros (c & Hc & Hd). congruence.
  - split; [discriminate | intros (c & Hc & _); discriminate].
Qed.

Lemma is_changed_store_ne last tag tag' :
  TagData.mac tag <> TagData.mac tag' ->
  is_changed (store last tag) tag' = is_changed last tag'.
Proof.
  intros Hne. unfold is_changed, store.
  now rewrite lookup_insert_ne.
Qed.

(** With pairwise distinct [mac]s no iteration sees the effect of an
    earlier one, so the loop tests every tag against the dict it started
    from. *)
Lemma fold_loop_body tags acc (last : cache) :
  NoDup (map TagData.mac tags) ->
  fold_left loop_body tags (acc, last) =
    (acc ++ List.filter (is_changed last) tags,
     fold_left store (List.filter (is_changed last) tags) last).
Proof.
  revert acc last. induction tags as [|tag tags IH]; intros acc last Hnd.
  - cbn. now rewrite app_nil_r.
  - cbn [map] in Hnd. apply NoDup_cons in Hnd as [Hmac Hnd].
    cbn [fold_left List.filter]. unfold loop_body at 2.
    cbn [fst snd].
    destruct (is_changed last tag) eqn:Hch.
    + rewrite IH by exact Hnd.
      assert (Hext : List.filter (is_changed (store last tag)) tags
                     = List.filter (is_changed last) tags).
      { apply List.filter_ext_in. intros tag' Hin.
        apply is_changed_store_ne. intros Heq. apply Hmac.
        rewrite Heq. apply list_elem_of_In. now apply in_map. }
      rewrite Hext. cbn [fold_left]. now rewrite <- app_assoc.
    + now rewrite IH.
Qed.

Lemma loop_changed tags (last : cache) :
  NoDup (map TagData.mac tags) ->
  fst (loop tags last) = List.filter (is_changed last) tags.
Proof. intros Hnd. unfold loop. now rewrite fold_loop_body. Qed.

Lemma loop_cache tags (last : cache) :
  NoDup (map TagData.mac tags) ->
  snd (loop tags last) =
    fold_left store (List.filter (is_changed last) tags) last.
Proof. intros Hnd. unfold loop. now rewrite fold_loop_body. Qed.

Lemma fold_store_other tags (last : cache) k :
  ~ In k (map TagData.mac tags) -> fold_left store tags last !! k = last !! k.
Proof.
  revert last. induction tags as [|tag tags IH]; intros last Hk; [reflexivity|].
  cbn [fold_left]. cbn [map] in Hk. rewrite IH by (cbn in Hk; tauto).
  unfold store. apply lookup_insert_ne. cbn in Hk. tauto.
Qed.

Lemma fold_store_member tags (last : cache) tag :
  NoDup (map TagData.mac tags) -> In tag tags ->
  fold_left store tags last !! TagData.mac tag = Some tag.
Proof.
  revert last. induction tags as [|tag' tags IH]; intros last Hnd Hin;
    [destruct Hin|].
  cbn [map] in Hnd. apply NoDup_cons in Hnd as [Hmac Hnd].
  cbn [fold_left]. destruct Hin as [->|Hin]; [|now apply IH].
  rewrite fold_store_other by (now rewrite <- list_elem_of_In).
  unfold store. apply lookup_insert_eq.
Qed.

Lemma filter_macs_NoDup (f : TagData.t -> bool) tags :
  NoDup (map TagData.mac tags) -> NoDup (map TagData.mac (List.filter f tags)).
Proof.
  induction tags as [|tag tags IH]; cbn [map List.filter]; intros Hnd;
    [constructor|].
  apply NoDup_cons in Hnd as [Hmac Hnd]. destruct (f tag); [|now apply IH].
  cbn [map]. apply NoDup_cons. split; [|now apply IH].
  intros Hin. apply Hmac. apply list_elem_of_In in Hin. apply list_elem_of_In.
  apply in_map_iff in Hin as (t & Ht & Hin). apply List.filter_In in Hin as [Hin _].
  rewrite <- Ht. now apply in_map.
Qed.

(** The dict after the loop, entry by entry. *)
Lemma loop_cache_changed tags (last : cache) tag :
  NoDup (map TagData.mac tags) -> In tag tags ->
  is_changed last tag = true ->
  snd (loop tags last) !! TagData.mac tag = Some tag.
Proof.
  intros Hnd Hin Hch. rewrite loop_cache by exact Hnd.
  apply fold_store_member; [now apply filter_macs_NoDup|].
  apply List.filter_In. auto.
Qed.

Lemma loop_cache_unchanged tags (last : cache) tag :
  NoDup (map TagData.mac tags) -> In tag tags ->
  is_changed last tag = false ->
  snd (loop tags last) !! TagData.mac tag = last !! TagData.mac tag.
Proof.
  intros Hnd Hin Hch. rewrite loop_cache by exact Hnd.
  apply fold_store_other. intros Hmac.
  apply in_map_iff in Hmac as (tag' & Heq & Hin').
  apply List.filter_In in Hin' as [Hin' Hch'].
  assert (tag' = tag) as -> by eauto using NoDup_map_inj_In.
  congruence.
Qed.

Lemma loop_cache_absent tags (last : cache) k :
  NoDup (map TagData.mac tags) -> ~ In k (map TagData.mac tags) ->
  snd (loop tags last) !! k = last !! k.
Proof.
  intros Hnd Hk. rewrite loop_cache by exact Hnd.
  apply fold_store_other. intros Hmac. apply Hk.
  apply in_map_iff in Hmac as (tag & Heq & Hin).
  apply List.filter_In in Hin as [Hin _]. rewrite <- Heq. now apply in_map.
Qed.

(** After the loop every tag of the list finds its own [data] cached. *)
Lemma loop_absorbs tags (last : cache) tag :
  NoDup (map TagData.mac tags) -> In tag tags ->
  is_changed (snd (loop tags last)) tag = false.
Proof.
  intros Hnd Hin. apply is_changed_false. destruct (is_changed last tag) eqn:Hch.
  - exists tag. split; [|reflexivity]. now apply loop_cache_changed.
  - rewrite loop_cache_unchanged by assumption. now apply is_changed_false.
Qed.

Lemma loop_again tags (last : cache) :
  NoDup (map TagData.mac tags) ->
  loop tags (snd (loop tags last)) = ([], snd (loop tags last)).
Proof.
  intros Hnd. set (last' := snd (loop tags last)).
  assert (Hnil : List.filter (is_changed last') tags = []).
  { destruct (List.filter _ _) as [|tag rest] eqn:Hfilter; [reflexivity|].
    assert (Hin : In tag (tag :: rest)) by now left.
    rewrite <- Hfilter in Hin. apply List.filter_In in Hin as [Hin Hagain].
    unfold last' in Hagain. rewrite loop_absorbs in Hagain by assumption.
    discriminate Hagain. }
  unfold loop. rewrite fold_loop_body by exact Hnd. now rewrite Hnil.
Qed.

End LoopFacts.

(** ** The built-ins on strings *)

Section BuiltinFacts.

Section Strip.

Variable space : ascii -> bool.

Lemma lstrip_split s :
  exists p, s = p ++ lstrip space s /\ forallb space p = true.
Proof.
  induction s as [|c s IH]; [now exists []|].
  cbn [lstrip]. destruct (space c) eqn:Hc; [|now exists []].
  destruct IH as (p & Hs & Hp). exists (c :: p). cbn [forallb app].
  rewrite Hc, Hp. now rewrite <- Hs.
Qed.

Lemma rstrip_split s :
  exists q, s = rstrip space s ++ q /\ forallb space q = true.
Proof.
  unfold rstrip. destruct (lstrip_split (rev s)) as (p & Hs & Hp).
  exists (rev p). split.
  - rewrite <- rev_app_distr, <- Hs. now rewrite rev_involutive.
  - rewrite forallb_forall in *. intros c Hc. apply Hp. now apply in_rev.
Qed.

Lemma lstrip_nil s : lstrip space s = [] <-> forallb space s = true.
Proof.
  induction s as [|c s IH]; [easy|].
  cbn [lstrip forallb]. destruct (space c); [exact IH | easy].
Qed.

Lemma lstrip_spaces s :
  forallb space (lstrip space s) = true -> lstrip space s = [].
Proof.
  induction s as [|c s IH]; [easy|].
  cbn [lstrip]. destruct (space c) eqn:Hc; [exact IH|].
  cbn [forallb]. now rewrite Hc.
Qed.

Lemma forallb_rev {A} (f : A -> bool) l : forallb f (rev l) = forallb f l.
Proof.
  apply eq_true_iff_eq. rewrite !forallb_forall.
  split; intros H x Hx; apply H; [rewrite <- List.in_rev | rewrite List.in_rev];
    now rewrite ?rev_involutive.
Qed.

Lemma strip_chars_nil s :
  rstrip space (lstrip space s) = [] <-> forallb space s = true.
Proof.
  unfold rstrip. split.
  - intros H. apply lstrip_nil, lstrip_spaces.
    apply (f_equal (@rev ascii)) in H. rewrite rev_involutive in H.
    apply lstrip_nil in H. now rewrite forallb_rev in H.
  - intros H. apply lstrip_nil in H. now rewrite H.
Qed.

End Strip.

(** [s.strip()] is empty exactly when [s] is all whitespace. *)
Lemma strip_empty s : strip s = ""%string <-> all_space s = true.
Proof.
  unfold strip, all_space. rewrite <- strip_chars_nil. split.
  - intros H. apply (f_equal list_ascii_of_string) in H.
    now rewrite list_ascii_of_string_of_list_ascii in H.
  - now intros ->.
Qed.

Lemma space_not_hex c : Py_ISSPACE c = true -> is_hex_digit c = false.
Proof.
  destruct c as [[] [] [] [] [] [] [] []]; intros H;
    solve [reflexivity | discriminate H].
Qed.

(** A string that [bytes.fromhex] accepts consists of hex digits and
    whitespace, two digits for each byte of the result. *)
Lemma fromhex_chars_Some n s b :
  (length s <= n)%nat -> fromhex_chars s = Some b ->
  forallb (fun c => is_hex_digit c || Py_ISSPACE c) s = true /\
  length (List.filter is_hex_digit s) = (2 * length b)%nat.
Proof.
  revert s b. induction n as [|n IH]; intros s b Hlen H.
  - destruct s; [|cbn in Hlen; lia]. injection H as <-. now split.
  - destruct s as [|c s']; [injection H as <-; now split|].
    cbn [length] in Hlen. cbn [fromhex_chars] in H.
    cbn [forallb List.filter].
    destruct (Py_ISSPACE c) eqn:Hsp.
    + rewrite (space_not_hex c Hsp). cbn [orb andb].
      apply IH; [lia | exact H].
    + unfold is_hex_digit at 1 3. destruct (hex_digit c) as [top|]; [|discriminate].
      destruct s' as [|d s'']; [discriminate|].
      cbn [forallb List.filter]. unfold is_hex_digit at 1 3.
      destruct (hex_digit d) as [bot|]; [|discriminate].
      destruct (fromhex_chars s'') as [b'|] eqn:Hrest; [|discriminate].
      cbn [option_map] in H. injection H as <-.
      cbn [length] in Hlen.
      destruct (IH s'' b' ltac:(lia) Hrest) as [Hall Hcount].
      cbn [orb andb length]. split; [exact Hall | lia].
Qed.

Lemma fromhex_Return v b :
  fromhex v = Return b ->
  exists s,
    v = JString s /\
    fromhex_chars (list_ascii_of_string s) = Some b /\
    forallb (fun c => is_hex_digit c || Py_ISSPACE c) (list_ascii_of_string s)
      = true /\
    length (hex_digits s) = (2 * length b)%nat.
Proof.
  destruct v; try discriminate. cbn [fromhex].
  destruct (fromhex_chars (list_ascii_of_string s)) as [b'|] eqn:Hs;
    [|discriminate].
  intros H. injection H as <-. exists s.
  destruct (fromhex_chars_Some _ _ _ (le_n _) Hs). auto.
Qed.

(** A character that is neither a hex digit nor whitespace makes a string
    non-hex, and so does an odd number of hex digits. *)
Lemma foreign_char_non_hex s c :
  In c (list_ascii_of_string s) ->
  is_hex_digit c = false -> Py_ISSPACE c = false ->
  non_hex (JString s).
Proof.
  intros Hin Hhex Hsp b Hb.
  destruct (fromhex_Return _ _ Hb) as (s' & Heq & _ & Hall & _).
  injection Heq as <-. rewrite forallb_forall in Hall.
  specialize (Hall c Hin). now rewrite Hhex, Hsp in Hall.
Qed.

Lemma odd_digits_non_hex s :
  Nat.Odd (length (hex_digits s)) -> non_hex (JString s).
Proof.
  intros [k Hk] b Hb.
  destruct (fromhex_Return _ _ Hb) as (s' & Heq & _ & _ & Hcount).
  injection Heq as <-. lia.
Qed.

Lemma not_str_non_hex v : (forall s, v <> JString s) -> non_hex v.
Proof.
  intros Hv b Hb. destruct (fromhex_Return _ _ Hb) as (s & Heq & _).
  now apply (Hv s).
Qed.

Lemma scan_digits_chars s prev_us acc n r :
  scan_digits prev_us acc n s = Some r ->
  forallb is_int_char s = true.
Proof.
  revert prev_us acc n. induction s as [|c s IH]; intros prev_us acc n H;
    [reflexivity|].
  cbn [scan_digits] in H. cbn [forallb]. unfold is_int_char at 1.
  unfold is_decimal_digit.
  destruct (Ascii.eqb c "_") eqn:Hus.
  - rewrite orb_true_r. cbn [orb andb]. destruct prev_us; [discriminate|].
    now apply IH in H.
  - destruct (decimal_digit c) as [d|]; [|discriminate].
    cbn [orb andb]. now apply IH in H.
Qed.

Lemma unsigned_literal_chars s z :
  unsigned_literal s = Some z -> forallb is_int_char s = true.
Proof.
  unfold unsigned_literal. destruct s as [|c s]; [discriminate|].
  destruct (Ascii.eqb c "_"); [discriminate|].
  destruct (scan_digits false 0 0 (c :: s)) as [[z' n]|] eqn:Hscan;
    [|discriminate].
  intros _. now apply scan_digits_chars in Hscan.
Qed.

(** A string that [int()] converts has decimal digits, underscores, a
    sign and whitespace only. *)
Lemma int_of_str_chars s z :
  int_of_str s = Return z ->
  forallb is_int_char (list_ascii_of_string s) = true.
Proof.
  unfold int_of_str. set (l := list_ascii_of_string s).
  destruct (lstrip_split int_space l) as (p & Hl & Hp).
  destruct (rstrip_split int_space (lstrip int_space l)) as (q & Hl' & Hq).
  intros H.
  assert (Hbody : forallb is_int_char (rstrip int_space (lstrip int_space l)) = true).
  { destruct (rstrip int_space (lstrip int_space l)) as [|c rest]; [reflexivity|].
    cbn [forallb]. destruct (Ascii.eqb c "-") eqn:Hminus.
    - unfold is_int_char at 1. rewrite Hminus, !orb_true_r. cbn [orb andb].
      destruct (unsigned_literal rest) as [z'|] eqn:Hu; [|discriminate].
      now apply unsigned_literal_chars in Hu.
    - destruct (Ascii.eqb c "+") eqn:Hplus.
      + unfold is_int_char at 1. rewrite Hplus, !orb_true_r. cbn [orb andb].
        destruct (unsigned_literal rest) as [z'|] eqn:Hu; [|discriminate].
        now apply unsigned_literal_chars in Hu.
      + destruct (unsigned_literal (c :: rest)) as [z'|] eqn:Hu; [|discriminate].
        now apply unsigned_literal_chars in Hu. }
  assert (Hsp : forall r, forallb int_space r = true ->
                          forallb is_int_char r = true).
  { intros r Hr. rewrite forallb_forall in *. intros c Hc.
    unfold is_int_char. rewrite (Hr c Hc). now rewrite !orb_true_r. }
  rewrite Hl, Hl', !forallb_app, Hbody. now rewrite !Hsp.
Qed.

Lemma foreign_char_non_numeric s c :
  In c (list_ascii_of_string s) -> is_int_char c = false ->
  non_numeric (JString s).
Proof.
  intros Hin Hc z Hz. cbn [int] in Hz. apply int_of_str_chars in Hz.
  rewrite forallb_forall in Hz. specialize (Hz c Hin). congruence.
Qed.

Lemma not_number_non_numeric v :
  match v with
  | JNull | JArray _ | JObject _ => True
  | _ => False
  end -> non_numeric v.
Proof. destruct v; intros [] value Hv; discriminate Hv. Qed.

End BuiltinFacts.

(** ** Malformed entries *)

Section MalformedFacts.

Lemma getitem_field entry k v : getitem entry k = Return v <-> field entry k = Some v.
Proof.
  destruct entry; cbn [getitem field]; try easy.
  destruct (assoc (dict_of_members ms) k); split; congruence.
Qed.

Lemma getitem_Raise o k e : getitem o k = Raise e -> decode_error e.
Proof.
  unfold decode_error. destruct o; cbn [getitem]; try (intros [= <-]; tauto).
  destruct (assoc (dict_of_members ms) k); [discriminate|]. intros [= <-]. tauto.
Qed.

Lemma int_Raise v e : int v = Raise e -> decode_error e.
Proof.
  unfold decode_error. destruct v; cbn [int]; try discriminate;
    try (intros [= <-]; tauto).
  - destruct f; cbn [int_of_float]; try discriminate; intros [= <-]; tauto.
  - unfold int_of_str.
    match goal with |- context [match ?x with Some _ => _ | None => _ end = _] =>
      destruct x end; [discriminate|]. intros [= <-]. tauto.
Qed.

Lemma fromhex_Raise v e : fromhex v = Raise e -> decode_error e.
Proof.
  unfold decode_error. destruct v; cbn [fromhex]; try (intros [= <-]; tauto).
  destruct (fromhex_chars (list_ascii_of_string s)); [discriminate|].
  intros [= <-]. tauto.
Qed.

(** Splits [H : (let? x := r in k) = Raise e] on whether [r] raised. *)
Ltac bind_raise H :=
  match type of H with
  | bind ?r _ = Raise _ =>
      let E := fresh "E" in
      destruct r eqn:E; cbn [bind] in H;
      [injection H as <-; eauto using getitem_Raise, int_Raise, fromhex_Raise|]
  end.

Lemma from_gateway_history_json_tag_Raise mac payload response_timestamp e :
  TagData.from_gateway_history_json_tag mac payload response_timestamp = Raise e ->
  decode_error e.
Proof.
  unfold TagData.from_gateway_history_json_tag. intros H.
  do 2 bind_raise H. cbv zeta in H. do 4 bind_raise H. discriminate H.
Qed.

Lemma malformed_not_constructed mac entry response_timestamp tag :
  malformed entry ->
  TagData.from_gateway_history_json_tag mac entry response_timestamp <> Return tag.
Proof.
  intros Hm H.
  destruct (from_gateway_history_json_tag_Return _ _ _ _ H)
    as (tf & rf & df & Htf & Hrf & Hdf & Hti & Hri & Hd & _).
  apply getitem_field in Htf, Hrf, Hdf.
  destruct Hm as [k Hk Hnone | v Hv Hhex | k v Hk Hv Hnum].
  - cbn in Hk. destruct Hk as [<-|[<-|[<-|[]]]]; congruence.
  - assert (v = df) as -> by congruence. now apply (Hhex (TagData.data tag)).
  - cbn in Hk. destruct Hk as [<-|[<-|[]]].
    + assert (v = tf) as -> by congruence. now apply (Hnum (TagData.timestamp tag)).
    + assert (v = rf) as -> by congruence. now apply (Hnum (TagData.rssi tag)).
Qed.

Lemma malformed_entry_raises body mac entry :
  In (mac, entry) (tags_of body) -> malformed entry ->
  exists e, HistoryResponse.from_gateway_history_json body = Raise e /\ decode_error e.
Proof.
  intros Hin Hm. unfold tags_of in Hin.
  destruct body as [| | | | | |top]; try destruct Hin.
  destruct (assoc (dict_of_members top) "data") as [[| | | | | |payload]|] eqn:Hdata;
    try destruct Hin.
  destruct (assoc (dict_of_members payload) "tags") as [[| | | | | |ms]|] eqn:Htags;
    try destruct Hin.
  unfold HistoryResponse.from_gateway_history_json.
  cbn [getitem]. rewrite Hdata. cbn [bind].
  destruct (getitem (JObject payload) "timestamp") as [e|tf] eqn:Htf; cbn [bind];
    [eauto using getitem_Raise|].
  destruct (int tf) as [e|rt] eqn:Hrt; cbn [bind]; [eauto using int_Raise|].
  cbn [get]. rewrite Htags. cbn [bind items].
  destruct (TagData.from_gateway_history_json_tag mac entry (Some rt))
    as [e|tag] eqn:Htag; [|now apply malformed_not_constructed in Htag].
  destruct (comprehension_Raise
              (fun entry => TagData.from_gateway_history_json_tag
                              (fst entry) (snd entry) (Some rt))
              _ (mac, entry) e Hin Htag) as (a' & e' & _ & Ha' & Hc).
  rewrite Hc. cbn [bind]. eauto using from_gateway_history_json_tag_Raise.
Qed.

End MalformedFacts.

(** ** Worked examples *)

Example int_accepts :
  int (JString " -1_000 ") = Return (-1000) /\
  int (JString "+007") = Return 7 /\
  int (JBool true) = Return 1 /\
  int (JFloat (S754_finite true 201 (-1))) = Return (-100).
Proof. repeat apply conj; reflexivity. Qed.

Example int_rejects :
  int (JString "1__0") = Raise ValueError /\
  int (JString "10_") = Raise ValueError /\
  int (JString "- 7") = Raise ValueError /\
  int (JString "") = Raise ValueError /\
  int (JString (String (ascii_of_N 28) "5")) = Raise ValueError /\
  int JNull = Raise TypeError /\
  int (JFloat S754_nan) = Raise ValueError /\
  int (JFloat (S754_infinity false)) = Raise OverflowError.
Proof. repeat apply conj; reflexivity. Qed.

Example fromhex_accepts :
  fromhex (JString "0201060303aafe") = Return [x02; x01; x06; x03; x03; xaa; xfe]%byte /\
  fromhex (JString "AbfF ") = Return [xab; xff]%byte /\
  fromhex (JString "") = Return [].
Proof. repeat apply conj; reflexivity. Qed.

Example fromhex_rejects :
  fromhex (JString "abc") = Raise ValueError /\
  fromhex (JString "a b") = Raise ValueError /\
  fromhex (JString "zz") = Raise ValueError /\
  fromhex (JInt 12) = Raise TypeError.
Proof. repeat apply conj; reflexivity. Qed.

Example lenient_entry_decodes :
  TagData.from_gateway_history_json_tag "11:22:33:44:55:66" lenient_entry (Some 0) =
    Return
      {| TagData.mac := "11:22:33:44:55:66";
         TagData.rssi := 1;
         TagData.timestamp := 95;
         TagData.data := [x0a; x0b]%byte;
         TagData.age_seconds := None |}.
Proof. reflexivity. Qed.

Example duplicate_member_last_wins :
  dict_of_members [("a"%string, JInt 1); ("b"%string, JInt 2); ("a"%string, JInt 3)]
  = [("a"%string, JInt 3); ("b"%string, JInt 2)].
Proof. reflexivity. Qed.

Example first_poll_reports_the_beacon :
  Coordinator._async_update_data
    (gateway_serving example_body) (Coordinator.__init__ "192.168.1.10" None)
  = (Return [example_tag],
     {| Coordinator.host := "192.168.1.10";
        Coordinator.token := None;
        Coordinator.last_tag_datas :=
          <["11:22:33:44:55:66"%string := example_tag]> ∅ |}).
Proof. vm_compute. reflexivity. Qed.

Example same_payload_is_not_reported :
  Coordinator._async_update_data (gateway_serving example_body) earlier_coordinator
  = (Return [], earlier_coordinator).
Proof. vm_compute. reflexivity. Qed.

(** ** Claims *)

(** The fetch returns a [HistoryResponse] for a body whose [tags] entry has
    a boolean as [rssi], a string as [timestamp] and a [data] with a
    character that is no hex digit: [int()] takes the boolean for 1 and
    the string for the integer it spells, and [bytes.fromhex] skips the
    blank between two bytes. *)
Lemma lenient_entry_is_fetched :
  In ("11:22:33:44:55:66"%string, lenient_entry) (tags_of lenient_body) /\
  (exists v, field lenient_entry "rssi" = Some v /\ is_json_number v = false) /\
  (exists v, field lenient_entry "timestamp" = Some v /\ is_json_number v = false) /\
  (exists s c,
     field lenient_entry "data" = Some (JString s) /\
     In c (list_ascii_of_string s) /\ is_hex_digit c = false) /\
  Api.async_get_gateway_history_data
    (gateway_serving lenient_body) "192.168.1.10" None None
  = Return lenient_response.
Proof.
  repeat apply conj.
  - vm_compute. auto.
  - exists (JBool true). split; reflexivity.
  - exists (JString " 9_5 "). split; reflexivity.
  - exists "0a 0B"%string, " "%char. repeat apply conj; [reflexivity | | reflexivity].
    cbn. auto.
  - reflexivity.
Qed.

(** C1, amended.  When the fetched body's [tags] mapping has an entry with
    a missing required field ([timestamp], [rssi] or [data]), a [data]
    that [bytes.fromhex] rejects, or a [timestamp] or [rssi] that [int()]
    rejects, [async_get_gateway_history_data] raises the built-in
    exception of the decoder, a [KeyError], [ValueError], [TypeError] or
    [OverflowError] (api.py has no exception class of its own for this,
    and the exception is neither [InvalidAuth] nor [CannotConnect]), and
    returns no [HistoryResponse], whatever the other entries are. *)
Theorem malformed_entry_aborts_fetch
    (s : Api.session) host bearer_token timeout body mac entry :
  s (Api.history_request host bearer_token timeout) = Api.Response 200 (Return body) ->
  In (mac, entry) (tags_of body) ->
  malformed entry ->
  exists e,
    Api.async_get_gateway_history_data s host bearer_token timeout = Raise e /\
    decode_error e /\
    forall r, Api.async_get_gateway_history_data s host bearer_token timeout <> Return r.
Proof.
  intros Hs Hin Hm.
  destruct (malformed_entry_raises body mac entry Hin Hm) as (e & He & Hclass).
  exists e. unfold Api.async_get_gateway_history_data, Api.try_body.
  rewrite Hs. cbn. rewrite He. repeat split; [exact Hclass | discriminate].
Qed.

Lemma malformed_entry_aborts_fetch_witness :
  exists e,
    Api.async_get_gateway_history_data
      (gateway_serving malformed_body) "192.168.1.10" None None = Raise e /\
    decode_error e /\
    forall r,
      Api.async_get_gateway_history_data
        (gateway_serving malformed_body) "192.168.1.10" None None <> Return r.
Proof.
  apply (malformed_entry_aborts_fetch
           (gateway_serving malformed_body) "192.168.1.10" None None
           malformed_body "77:88:99:AA:BB:CC" malformed_entry).
  - reflexivity.
  - vm_compute. auto.
  - apply (non_hex_data malformed_entry (JString "zz")); [reflexivity|].
    intros b Hb. vm_compute in Hb. discriminate Hb.
Defined.

(** The fetch tests its token for truth and does not trim it: handed the
    whitespace-only token, which is empty after trimming, it sends an
    [Authorization] header. *)
Lemma whitespace_token_sends_header :
  strip "  " = ""%string /\
  Api.headers (Api.history_request "192.168.1.10" (Some "  "%string) None)
    = Some [("Authorization"%string, "Bearer   "%string)] /\
  Api.headers (Api.history_request "192.168.1.10" (Some "  "%string) None)
    <> None.
Proof. split; [reflexivity | split; [reflexivity | discriminate]]. Qed.

(** C2, amended.  [async_get_gateway_history_data] sends no
    [Authorization] header when its token is [None] or the empty string,
    and [Authorization: Bearer <token>] with the token as given otherwise;
    trimming is the config flow's: [_async_validate] hands over the trimmed
    token, or [None] when the input is not a string or is all whitespace,
    so that a fetch from the config flow sends no header for such an input
    and [Bearer] with the trimmed token for any other. *)
Theorem authorization_header :
  (forall host bearer_token timeout,
     Api.headers (Api.history_request host bearer_token timeout) =
       match bearer_token with
       | None => None
       | Some token =>
           if String.eqb token "" then None
           else Some [("Authorization"%string, "Bearer " +:+ token)]
       end) /\
  (forall input,
     Api.headers (ConfigFlow._async_validate_request input) =
       match ConfigFlow.CONF_TOKEN input with
       | Some (JString s) =>
           if all_space s then None
           else Some [("Authorization"%string, "Bearer " +:+ strip s)]
       | _ => None
       end).
Proof.
  split.
  - intros host [token|] timeout; cbn; [|reflexivity].
    now destruct (String.eqb token "").
  - intros [host token_input].
    unfold ConfigFlow._async_validate_request, ConfigFlow.token_of_input.
    cbn [ConfigFlow.CONF_HOST ConfigFlow.CONF_TOKEN].
    destruct token_input as [[| | | |s| |]|]; try reflexivity.
    destruct (all_space s) eqn:Hsp.
    + apply strip_empty in Hsp. rewrite Hsp. reflexivity.
    + destruct (String.eqb_spec (strip s) "") as [Heq|Hne].
      * apply strip_empty in Heq. congruence.
      * cbn. apply String.eqb_neq in Hne. now rewrite Hne.
Qed.

(** The decoder constructs a record for an entry whose [data] is the empty
    string, and its payload is empty. *)
Lemma empty_payload_is_constructed :
  HistoryResponse.from_gateway_history_json empty_data_body =
    Return
      {| HistoryResponse.timestamp := 100;
         HistoryResponse.gw_mac := JString "AA:BB:CC:DD:EE:FF";
         HistoryResponse.tags := [empty_data_tag];
         HistoryResponse.coordinates := JString "" |} /\
  TagData.data empty_data_tag = [].
Proof. split; reflexivity. Qed.

(** C3, amended.  The [data] of every [TagData] that the decoder constructs
    is what [bytes.fromhex] makes of the entry's [data] string: one byte
    for every two hex digits, hence empty exactly when the string has no
    hex digit (the empty string, or whitespace only).  An entry whose
    [data] is not a string, or not hex, is rejected with a decode exception
    and nothing is constructed for it. *)
Theorem payload_is_fromhex_of_data mac payload response_timestamp :
  (forall tag,
     TagData.from_gateway_history_json_tag mac payload response_timestamp
       = Return tag ->
     exists s,
       field payload "data" = Some (JString s) /\
       fromhex (JString s) = Return (TagData.data tag) /\
       length (hex_digits s) = (2 * length (TagData.data tag))%nat /\
       (TagData.data tag = [] <-> hex_digits s = [])) /\
  (forall v,
     field payload "data" = Some v -> non_hex v ->
     exists e,
       TagData.from_gateway_history_json_tag mac payload response_timestamp
         = Raise e /\
       decode_error e).
Proof.
  split.
  - intros tag H.
    destruct (from_gateway_history_json_tag_Return _ _ _ _ H)
      as (_ & _ & df & _ & _ & Hdf & _ & _ & Hd & _).
    apply getitem_field in Hdf.
    destruct (fromhex_Return _ _ Hd) as (s & -> & _ & _ & Hcount).
    exists s. repeat split; auto.
    + intros Hnil. rewrite Hnil in Hcount. now apply length_zero_iff_nil.
    + intros Hnil. rewrite Hnil in Hcount. cbn in Hcount.
      apply length_zero_iff_nil. lia.
  - intros v Hv Hhex.
    destruct (TagData.from_gateway_history_json_tag mac payload response_timestamp)
      as [e|tag] eqn:Htag.
    + eauto using from_gateway_history_json_tag_Raise.
    + exfalso. eapply malformed_not_constructed; [|exact Htag].
      eapply non_hex_data; eauto.
Qed.

Lemma payload_is_fromhex_of_data_witness :
  (exists s,
     field empty_data_entry "data" = Some (JString s) /\
     fromhex (JString s) = Return (TagData.data empty_data_tag) /\
     length (hex_digits s) = (2 * length (TagData.data empty_data_tag))%nat /\
     (TagData.data empty_data_tag = [] <-> hex_digits s = [])) /\
  (exists e,
     TagData.from_gateway_history_json_tag
       "77:88:99:AA:BB:CC" malformed_entry (Some 100) = Raise e /\
     decode_error e).
Proof.
  split.
  - apply (proj1 (payload_is_fromhex_of_data
                    "11:22:33:44:55:66" empty_data_entry (Some 100))
             empty_data_tag).
    reflexivity.
  - apply (proj2 (payload_is_fromhex_of_data
                    "77:88:99:AA:BB:CC" malformed_entry (Some 100))
             (JString "zz")); [reflexivity|].
    intros b Hb. vm_compute in Hb. discriminate Hb.
Defined.

(** C6.  Every record of a decoded response has [age_seconds] equal to the
    response timestamp minus the record's timestamp when the response
    timestamp is not zero, and [None] when it is zero; decoding one entry
    against an absent response timestamp gives [None] as well.  The
    example body decodes to exactly one record, whose [age_seconds] is 5. *)
Theorem age_seconds_of_decoded_records :
  (forall body r,
     HistoryResponse.from_gateway_history_json body = Return r ->
     Forall
       (fun tag =>
          TagData.age_seconds tag =
            if HistoryResponse.timestamp r =? 0 then None
            else Some (HistoryResponse.timestamp r - TagData.timestamp tag))
       (HistoryResponse.tags r)) /\
  (forall mac payload response_timestamp tag,
     TagData.from_gateway_history_json_tag mac payload response_timestamp
       = Return tag ->
     TagData.age_seconds tag =
       match response_timestamp with
       | Some rt => if rt =? 0 then None else Some (rt - TagData.timestamp tag)
       | None => None
       end) /\
  HistoryResponse.from_gateway_history_json example_body = Return example_response /\
  map TagData.age_seconds (HistoryResponse.tags example_response) = [Some 5].
Proof.
  assert (Htag : forall mac payload response_timestamp tag,
     TagData.from_gateway_history_json_tag mac payload response_timestamp
       = Return tag ->
     TagData.age_seconds tag =
       match response_timestamp with
       | Some rt => if rt =? 0 then None else Some (rt - TagData.timestamp tag)
       | None => None
       end).
  { intros mac payload rt tag H.
    destruct (from_gateway_history_json_tag_Return _ _ _ _ H)
      as (_ & _ & _ & _ & _ & _ & _ & _ & _ & _ & Hage).
    rewrite Hage. destruct rt as [rt|]; [|reflexivity].
    cbn [truthy_int option_map]. now destruct (rt =? 0). }
  split; [|split; [exact Htag | split; reflexivity]].
  intros body r H.
  destruct (from_gateway_history_json_Return _ _ H)
    as (_ & _ & _ & entries & _ & _ & _ & _ & _ & _ & Hall).
  induction Hall as [|entry tag entries tags Hentry _ IH]; constructor;
    [|exact IH].
  exact (Htag _ _ _ _ Hentry).
Qed.

Lemma age_seconds_of_decoded_records_witness :
  TagData.age_seconds example_tag = Some (100 - 95) /\
  TagData.age_seconds example_tag = Some 5.
Proof.
  split.
  - exact (@List.Forall_inv _ _ example_tag []
             (proj1 age_seconds_of_decoded_records
                example_body example_response eq_refl)).
  - exact (proj1 (proj2 age_seconds_of_decoded_records)
             "11:22:33:44:55:66"
             (JObject
                [("rssi"%string, JInt (-70));
                 ("timestamp"%string, JInt 95);
                 ("data"%string, JString "0201060303aafe")])
             (Some 100) example_tag eq_refl).
Defined.

(** C7.  Whatever the request: a response with status 401 makes the fetch
    raise [InvalidAuth], whatever its body; a response with any other
    status than 200 makes it raise [CannotConnect] with the status in the
    message; a timeout or a client error of [session.get], and a body of a
    200 response that fails to parse ([ValueError]) or to arrive, make it
    raise [CannotConnect]. *)
Theorem fetch_failure_classes (s : Api.session) host bearer_token timeout :
  let fetch := Api.async_get_gateway_history_data s host bearer_token timeout in
  let sent := s (Api.history_request host bearer_token timeout) in
  (forall body, sent = Api.Response 401 body -> fetch = Raise InvalidAuth) /\
  (forall status body,
     sent = Api.Response status body -> status <> 200 -> status <> 401 ->
     fetch =
       Raise (CannotConnect
                ("Unexpected response from gateway: HTTP " +:+ str_of_int status))) /\
  (sent = Api.GetRaises TimeoutError ->
   fetch = Raise (CannotConnect "Timeout communicating with gateway")) /\
  (sent = Api.GetRaises ClientError ->
   fetch = Raise (CannotConnect "Error communicating with gateway")) /\
  (sent = Api.Response 200 (Raise ValueError) ->
   fetch = Raise (CannotConnect "Invalid response from gateway")) /\
  (sent = Api.Response 200 (Raise TimeoutError) ->
   fetch = Raise (CannotConnect "Timeout communicating with gateway")) /\
  (sent = Api.Response 200 (Raise ClientError) ->
   fetch = Raise (CannotConnect "Error communicating with gateway")).
Proof.
  cbv zeta. unfold Api.async_get_gateway_history_data, Api.try_body.
  repeat apply conj.
  - intros body ->. reflexivity.
  - intros status body -> H200 H401.
    apply Z.eqb_neq in H200, H401. rewrite H200, H401. reflexivity.
  - intros ->. reflexivity.
  - intros ->. reflexivity.
  - intros ->. reflexivity.
  - intros ->. reflexivity.
  - intros ->. reflexivity.
Qed.

Lemma fetch_failure_classes_witness :
  Api.async_get_gateway_history_data
    (gateway_answering 401 (Return example_body)) "192.168.1.10" None None
    = Raise InvalidAuth /\
  Api.async_get_gateway_history_data
    (gateway_answering 503 (Return example_body)) "192.168.1.10" None None
    = Raise (CannotConnect "Unexpected response from gateway: HTTP 503") /\
  Api.async_get_gateway_history_data
    (gateway_raising TimeoutError) "192.168.1.10" None None
    = Raise (CannotConnect "Timeout communicating with gateway") /\
  Api.async_get_gateway_history_data
    (gateway_raising ClientError) "192.168.1.10" None None
    = Raise (CannotConnect "Error communicating with gateway") /\
  Api.async_get_gateway_history_data
    (gateway_answering 200 (Raise ValueError)) "192.168.1.10" None None
    = Raise (CannotConnect "Invalid response from gateway").
Proof.
  repeat apply conj.
  - apply (proj1 (fetch_failure_classes
                    (gateway_answering 401 (Return example_body))
                    "192.168.1.10" None None) (Return example_body)).
    reflexivity.
  - apply (proj1 (proj2 (fetch_failure_classes
                    (gateway_answering 503 (Return example_body))
                    "192.168.1.10" None None)) 503 (Return example_body));
      [reflexivity | lia | lia].
  - apply (proj1 (proj2 (proj2 (fetch_failure_classes
                    (gateway_raising TimeoutError)
                    "192.168.1.10" None None)))).
    reflexivity.
  - apply (proj1 (proj2 (proj2 (proj2 (fetch_failure_classes
                    (gateway_raising ClientError)
                    "192.168.1.10" None None))))).
    reflexivity.
  - apply (proj1 (proj2 (proj2 (proj2 (proj2 (fetch_failure_classes
                    (gateway_answering 200 (Raise ValueError))
                    "192.168.1.10" None None)))))).
    reflexivity.
Defined.

(** C8.  A poll that raises, whether [InvalidAuth], [CannotConnect] or a
    decode exception, raises what the fetch raised and leaves the
    coordinator, and with it [last_tag_datas], exactly as it was. *)
Theorem failed_poll_keeps_cache (s : Api.session) self e self' :
  Coordinator._async_update_data s self = (Raise e, self') ->
  self' = self /\
  Coordinator.last_tag_datas self' = Coordinator.last_tag_datas self /\
  Api.async_get_gateway_history_data
    s (Coordinator.host self) (Coordinator.token self) None = Raise e.
Proof.
  unfold Coordinator._async_update_data.
  destruct (Api.async_get_gateway_history_data
              s (Coordinator.host self) (Coordinator.token self) None)
    as [e'|data]; [|discriminate].
  intros [= <- <-]. auto.
Qed.

Lemma failed_poll_keeps_cache_witness :
  earlier_coordinator = earlier_coordinator /\
  Coordinator.last_tag_datas earlier_coordinator
    = Coordinator.last_tag_datas earlier_coordinator /\
  Api.async_get_gateway_history_data
    (gateway_serving malformed_body)
    (Coordinator.host earlier_coordinator)
    (Coordinator.token earlier_coordinator) None = Raise ValueError.
Proof.
  apply (failed_poll_keeps_cache
           (gateway_serving malformed_body) earlier_coordinator
           ValueError earlier_coordinator).
  reflexivity.
Defined.

(** Every failure of the fetch is a failure of the poll. *)
Lemma failed_fetch_fails_poll (s : Api.session) self e :
  Api.async_get_gateway_history_data
    s (Coordinator.host self) (Coordinator.token self) None = Raise e ->
  Coordinator._async_update_data s self = (Raise e, self).
Proof. unfold Coordinator._async_update_data. now intros ->. Qed.

(** X13.  A poll whose fetched body has a malformed entry in its [tags]
    raises a decode exception: it reports nothing, not even the records of
    the well-formed entries, and keeps the coordinator, [last_tag_datas]
    included, as it was. *)
Lemma malformed_entry_fails_poll (s : Api.session) self body mac entry :
  s (Api.history_request (Coordinator.host self) (Coordinator.token self) None)
    = Api.Response 200 (Return body) ->
  In (mac, entry) (tags_of body) -> malformed entry ->
  exists e, Coordinator._async_update_data s self = (Raise e, self) /\ decode_error e.
Proof.
  intros Hs Hin Hm.
  destruct (malformed_entry_raises body mac entry Hin Hm) as (e & He & Hclass).
  exists e. split; [|exact Hclass]. apply failed_fetch_fails_poll.
  unfold Api.async_get_gateway_history_data, Api.try_body.
  rewrite Hs. cbn. exact He.
Qed.

Section DiffClaims.

Import Coordinator.

Abbreviation cache := (gmap string TagData.t).

(** C4.  For a decoded response and any [last_tag_datas], the loop reports
    a record exactly when its [mac] is not a key of the dict or the cached
    [data] differs from the record's.  So a record whose [data] equals the
    cached one is not reported, whatever its [rssi] and [timestamp], and a
    record with a [mac] not seen before is reported. *)
Theorem changed_iff_new_or_payload_differs body r (last : cache) tag :
  HistoryResponse.from_gateway_history_json body = Return r ->
  (In tag (fst (loop (HistoryResponse.tags r) last)) <->
   In tag (HistoryResponse.tags r) /\
   (last !! TagData.mac tag = None \/
    exists cached,
      last !! TagData.mac tag = Some cached /\
      TagData.data cached <> TagData.data tag)) /\
  (forall cached,
     last !! TagData.mac tag = Some cached ->
     TagData.data cached = TagData.data tag ->
     ~ In tag (fst (loop (HistoryResponse.tags r) last))) /\
  (In tag (HistoryResponse.tags r) ->
   last !! TagData.mac tag = None ->
   In tag (fst (loop (HistoryResponse.tags r) last))).
Proof.
  intros Hr. pose proof (decoded_macs _ _ Hr) as Hnd.
  rewrite loop_changed by exact Hnd.
  assert (Hiff : In tag (List.filter (is_changed last) (HistoryResponse.tags r)) <->
                 In tag (HistoryResponse.tags r) /\
                 (last !! TagData.mac tag = None \/
                  exists cached,
                    last !! TagData.mac tag = Some cached /\
                    TagData.data cached <> TagData.data tag)).
  { now rewrite List.filter_In, is_changed_true. }
  split; [exact Hiff|]. split.
  - intros cached Hc Hd Hin. apply Hiff in Hin as [_ [Hnone|(c & Hc' & Hne)]];
      congruence.
  - intros Hin Hnone. apply Hiff. auto.
Qed.

Lemma changed_iff_new_or_payload_differs_witness :
  (In example_tag (fst (loop (HistoryResponse.tags example_response) earlier_cache)) <->
   In example_tag (HistoryResponse.tags example_response) /\
   (earlier_cache !! TagData.mac example_tag = None \/
    exists cached,
      earlier_cache !! TagData.mac example_tag = Some cached /\
      TagData.data cached <> TagData.data example_tag)) /\
  (forall cached,
     earlier_cache !! TagData.mac example_tag = Some cached ->
     TagData.data cached = TagData.data example_tag ->
     ~ In example_tag (fst (loop (HistoryResponse.tags example_response) earlier_cache))) /\
  (In example_tag (HistoryResponse.tags example_response) ->
   earlier_cache !! TagData.mac example_tag = None ->
   In example_tag (fst (loop (HistoryResponse.tags example_response) earlier_cache))).
Proof.
  apply (changed_iff_new_or_payload_differs
           example_body example_response earlier_cache example_tag).
  reflexivity.
Defined.

(** C5.  Running the loop a second time on the same decoded response, from
    the dict that the first run left, reports nothing. *)
Theorem second_run_reports_nothing body r (last : cache) :
  HistoryResponse.from_gateway_history_json body = Return r ->
  fst (loop (HistoryResponse.tags r) (snd (loop (HistoryResponse.tags r) last))) = [].
Proof.
  intros Hr. rewrite loop_again by exact (decoded_macs _ _ Hr). reflexivity.
Qed.

Lemma second_run_reports_nothing_witness :
  fst (loop (HistoryResponse.tags example_response)
         (snd (loop (HistoryResponse.tags example_response) silent_cache))) = [].
Proof.
  apply (second_run_reports_nothing example_body example_response silent_cache).
  reflexivity.
Defined.

(** X12.  On the level of polls: when a poll has returned and the gateway
    then serves the same response again, the second poll returns the empty
    list and leaves the coordinator, [last_tag_datas] included, as the
    first poll left it. *)
Lemma second_poll_reports_nothing (s : Api.session) self changed self' :
  _async_update_data s self = (Return changed, self') ->
  _async_update_data s self' = (Return [], self').
Proof.
  unfold _async_update_data.
  destruct (Api.async_get_gateway_history_data s (host self) (token self) None)
    as [e|data] eqn:Hfetch; [discriminate|].
  intros [= <- <-]. cbn [host token last_tag_datas]. rewrite Hfetch.
  assert (Hnd : NoDup (map TagData.mac (HistoryResponse.tags data))).
  { unfold Api.async_get_gateway_history_data in Hfetch.
    destruct (Api.try_body _ _) as [e|body]; [discriminate|].
    exact (decoded_macs _ _ Hfetch). }
  now rewrite loop_again by exact Hnd.
Qed.

(** C9.  After the loop on a decoded response, every [mac] of the response
    is a key of [last_tag_datas] and the [data] cached for it is that of
    the response; every other key has the entry it had, and no key is
    removed. *)
Theorem cache_after_loop body r (last : cache) :
  HistoryResponse.from_gateway_history_json body = Return r ->
  (forall tag,
     In tag (HistoryResponse.tags r) ->
     exists cached,
       snd (loop (HistoryResponse.tags r) last) !! TagData.mac tag = Some cached /\
       TagData.data cached = TagData.data tag) /\
  (forall k,
     ~ In k (map TagData.mac (HistoryResponse.tags r)) ->
     snd (loop (HistoryResponse.tags r) last) !! k = last !! k) /\
  (forall k,
     is_Some (last !! k) ->
     is_Some (snd (loop (HistoryResponse.tags r) last) !! k)).
Proof.
  intros Hr. pose proof (decoded_macs _ _ Hr) as Hnd.
  assert (Hpresent : forall tag,
     In tag (HistoryResponse.tags r) ->
     exists cached,
       snd (loop (HistoryResponse.tags r) last) !! TagData.mac tag = Some cached /\
       TagData.data cached = TagData.data tag).
  { intros tag Hin. apply is_changed_false. now apply loop_absorbs. }
  split; [exact Hpresent|]. split.
  - intros k Hk. now apply loop_cache_absent.
  - intros k Hsome.
    destruct (in_dec string_dec k (map TagData.mac (HistoryResponse.tags r)))
      as [Hk|Hk].
    + apply in_map_iff in Hk as (tag & <- & Hin).
      destruct (Hpresent tag Hin) as (cached & -> & _). eauto.
    + now rewrite loop_cache_absent.
Qed.

Lemma cache_after_loop_witness :
  (forall tag,
     In tag (HistoryResponse.tags example_response) ->
     exists cached,
       snd (loop (HistoryResponse.tags example_response) silent_cache)
         !! TagData.mac tag = Some cached /\
       TagData.data cached = TagData.data tag) /\
  (forall k,
     ~ In k (map TagData.mac (HistoryResponse.tags example_response)) ->
     snd (loop (HistoryResponse.tags example_response) silent_cache) !! k
       = silent_cache !! k) /\
  (forall k,
     is_Some (silent_cache !! k) ->
     is_Some (snd (loop (HistoryResponse.tags example_response) silent_cache) !! k)).
Proof.
  apply (cache_after_loop example_body example_response silent_cache).
  reflexivity.
Defined.

(** C10.  After the loop on a decoded response, a [mac] of the response
    whose cached [data] equals the new one keeps the whole cached record,
    with the [rssi], [timestamp] and [age_seconds] it was stored with;
    every reported record is the entry of its [mac]; and an entry that
    differs from the one before the loop belongs to a reported record. *)
Theorem unchanged_entries_keep_cached_record body r (last : cache) :
  HistoryResponse.from_gateway_history_json body = Return r ->
  (forall tag cached,
     In tag (HistoryResponse.tags r) ->
     last !! TagData.mac tag = Some cached ->
     TagData.data cached = TagData.data tag ->
     snd (loop (HistoryResponse.tags r) last) !! TagData.mac tag = Some cached) /\
  (forall tag,
     In tag (fst (loop (HistoryResponse.tags r) last)) ->
     snd (loop (HistoryResponse.tags r) last) !! TagData.mac tag = Some tag) /\
  (forall k,
     snd (loop (HistoryResponse.tags r) last) !! k <> last !! k ->
     exists tag,
       In tag (fst (loop (HistoryResponse.tags r) last)) /\ TagData.mac tag = k).
Proof.
  intros Hr. pose proof (decoded_macs _ _ Hr) as Hnd.
  rewrite loop_changed by exact Hnd. repeat apply conj.
  - intros tag cached Hin Hc Hd. rewrite loop_cache_unchanged; auto.
    apply is_changed_false. eauto.
  - intros tag Hin. apply List.filter_In in Hin as [Hin Hch].
    now apply loop_cache_changed.
  - intros k Hk.
    destruct (in_dec string_dec k (map TagData.mac (HistoryResponse.tags r)))
      as [Hin|Hin].
    + apply in_map_iff in Hin as (tag & <- & Hin). exists tag.
      split; [|reflexivity]. apply List.filter_In. split; [exact Hin|].
      destruct (is_changed last tag) eqn:Hch; [reflexivity|].
      exfalso. apply Hk. now apply loop_cache_unchanged.
    + exfalso. apply Hk. now apply loop_cache_absent.
Qed.

Lemma unchanged_entries_keep_cached_record_witness :
  (forall tag cached,
     In tag (HistoryResponse.tags example_response) ->
     earlier_cache !! TagData.mac tag = Some cached ->
     TagData.data cached = TagData.data tag ->
     snd (loop (HistoryResponse.tags example_response) earlier_cache)
       !! TagData.mac tag = Some cached) /\
  (forall tag,
     In tag (fst (loop (HistoryResponse.tags example_response) earlier_cache)) ->
     snd (loop (HistoryResponse.tags example_response) earlier_cache)
       !! TagData.mac tag = Some tag) /\
  (forall k,
     snd (loop (HistoryResponse.tags example_response) earlier_cache) !! k
       <> earlier_cache !! k ->
     exists tag,
       In tag (fst (loop (HistoryResponse.tags example_response) earlier_cache)) /\
       TagData.mac tag = k).
Proof.
  apply (unchanged_entries_keep_cached_record
           example_body example_response earlier_cache).
  reflexivity.
Defined.

End DiffClaims.

(** * Further properties *)

(** ** Decoding, in full *)

Section DecodeMore.

Lemma getitem_Raise_field o k e : getitem o k = Raise e -> field o k = None.
Proof.
  destruct o; cbn [getitem field]; try reflexivity.
  now destruct (assoc (dict_of_members ms) k).
Qed.

Lemma get_field o k default v :
  get o k default = Return v ->
  is_dict o = true /\
  (field o k = Some v \/ field o k = None /\ v = default).
Proof.
  destruct o; cbn [get field is_dict]; try discriminate.
  destruct (assoc (dict_of_members ms) k); intros [= <-]; auto.
Qed.

Lemma get_Raise o k default e :
  get o k default = Raise e -> e = AttributeError /\ is_dict o = false.
Proof.
  destruct o; cbn [get is_dict]; try (intros [= <-]; auto).
  now destruct (assoc (dict_of_members ms) k).
Qed.

Lemma items_Raise o e :
  items o = Raise e -> e = AttributeError /\ is_dict o = false.
Proof. destruct o; cbn [items is_dict]; intros [= <-]; auto. Qed.

Lemma comprehension_Raise_inv {A B} (f : A -> result B) l e :
  comprehension f l = Raise e -> exists a, In a l /\ f a = Raise e.
Proof.
  induction l as [|x l IH]; cbn [comprehension]; [discriminate|].
  destruct (f x) as [ex|b] eqn:Ex; cbn [bind].
  - intros [= <-]. exists x. auto with datatypes.
  - destruct (comprehension f l) as [el|bs]; cbn [bind]; [|discriminate].
    intros [= <-]. destruct (IH eq_refl) as (a & Hin & Ha).
    exists a. auto with datatypes.
Qed.

Lemma comprehension_all_Return {A B} (f : A -> result B) l :
  (forall a, In a l -> exists b, f a = Return b) ->
  exists bs, comprehension f l = Return bs.
Proof.
  induction l as [|x l IH]; intros Hall; cbn [comprehension]; [eauto|].
  destruct (Hall x ltac:(now left)) as (b & ->).
  destruct IH as (bs & ->); [intros a Ha; apply Hall; now right|].
  cbn [bind]. eauto.
Qed.

(** An entry is constructed or it is malformed. *)
Lemma constructed_or_malformed mac entry response_timestamp :
  (exists tag,
     TagData.from_gateway_history_json_tag mac entry response_timestamp = Return tag)
  \/ malformed entry.
Proof.
  unfold TagData.from_gateway_history_json_tag.
  destruct (getitem entry "timestamp") as [e|tf] eqn:Htf; cbn [bind].
  { right. apply (missing_field entry "timestamp"); [cbn; tauto|].
    eauto using getitem_Raise_field. }
  apply getitem_field in Htf.
  destruct (int tf) as [e|ts] eqn:Hts; cbn [bind].
  { right. apply (non_numeric_field entry "timestamp" tf); [cbn; tauto|exact Htf|].
    intros z Hz. congruence. }
  cbv zeta.
  destruct (getitem entry "rssi") as [e|rf] eqn:Hrf; cbn [bind].
  { right. apply (missing_field entry "rssi"); [cbn; tauto|].
    eauto using getitem_Raise_field. }
  apply getitem_field in Hrf.
  destruct (int rf) as [e|rs] eqn:Hrs; cbn [bind].
  { right. apply (non_numeric_field entry "rssi" rf); [cbn; tauto|exact Hrf|].
    intros z Hz. congruence. }
  destruct (getitem entry "data") as [e|df] eqn:Hdf; cbn [bind].
  { right. apply (missing_field entry "data"); [cbn; tauto|].
    eauto using getitem_Raise_field. }
  apply getitem_field in Hdf.
  destruct (fromhex df) as [e|b] eqn:Hb; cbn [bind].
  { right. apply (non_hex_data entry df); [exact Hdf|].
    intros b Hb'. congruence. }
  left. eauto.
Qed.

(** The exceptions of [from_gateway_history_json]. *)
Lemma from_gateway_history_json_Raise body e :
  HistoryResponse.from_gateway_history_json body = Raise e ->
  decode_error e \/ e = AttributeError.
Proof.
  unfold HistoryResponse.from_gateway_history_json. intros H.
  destruct (getitem body "data") as [e0|payload] eqn:E0; cbn [bind] in H;
    [injection H as <-; eauto using getitem_Raise|].
  destruct (getitem payload "timestamp") as [e1|tf] eqn:E1; cbn [bind] in H;
    [injection H as <-; eauto using getitem_Raise|].
  destruct (int tf) as [e2|rt] eqn:E2; cbn [bind] in H;
    [injection H as <-; eauto using int_Raise|].
  destruct (get payload "tags" (JObject [])) as [e3|tf'] eqn:E3; cbn [bind] in H;
    [injection H as <-; right; eapply get_Raise; eauto|].
  destruct (items tf') as [e4|entries] eqn:E4; cbn [bind] in H;
    [injection H as <-; right; eapply items_Raise; eauto|].
  destruct (comprehension _ entries) as [e5|tags] eqn:E5; cbn [bind] in H.
  { injection H as <-. apply comprehension_Raise_inv in E5 as (a & _ & Ha).
    eauto using from_gateway_history_json_tag_Raise. }
  destruct (getitem payload "gw_mac") as [e6|gw] eqn:E6; cbn [bind] in H;
    [injection H as <-; eauto using getitem_Raise|].
  destruct (get payload "coordinates" (JString "")) as [e7|co] eqn:E7;
    cbn [bind] in H; [|discriminate].
  injection H as <-. right. eapply get_Raise; eauto.
Qed.

End DecodeMore.

(** X1.  An entry of the [tags] dict is decoded to a [TagData] exactly
    when it is not malformed: it has the three fields, [int()] converts its
    [timestamp] and [rssi], and [bytes.fromhex] its [data]. *)
Theorem entry_constructed_iff_not_malformed mac entry response_timestamp :
  (exists tag,
     TagData.from_gateway_history_json_tag mac entry response_timestamp = Return tag)
  <-> ~ malformed entry.
Proof.
  split.
  - intros (tag & Htag) Hm. now apply (malformed_not_constructed _ _ _ _ Hm Htag).
  - intros Hm. destruct (constructed_or_malformed mac entry response_timestamp);
      [assumption | contradiction].
Qed.

Section ResponseMore.

Lemma Forall2_In_left {A B} (P : A -> B -> Prop) l l' a :
  Forall2 P l l' -> In a l -> exists b, In b l' /\ P a b.
Proof.
  induction 1 as [|x y l l' Hxy _ IH]; intros Hin; [destruct Hin|].
  destruct Hin as [->|Hin].
  - exists y. auto with datatypes.
  - destruct (IH Hin) as (b & Hb & HP). exists b. auto with datatypes.
Qed.

(** The parts of a body that decoding touches, once it has succeeded. *)
Lemma from_gateway_history_json_fields body r :
  HistoryResponse.from_gateway_history_json body = Return r ->
  exists payload timestamp_field,
    field body "data" = Some payload /\
    field payload "timestamp" = Some timestamp_field /\
    int timestamp_field = Return (HistoryResponse.timestamp r) /\
    (field payload "tags" = None \/
     exists ms, field payload "tags" = Some (JObject ms)) /\
    field payload "gw_mac" = Some (HistoryResponse.gw_mac r) /\
    HistoryResponse.coordinates r =
      match field payload "coordinates" with
      | Some v => v
      | None => JString ""
      end /\
    Forall2
      (fun entry tag =>
         TagData.from_gateway_history_json_tag
           (fst entry) (snd entry) (Some (HistoryResponse.timestamp r))
         = Return tag)
      (tags_of body) (HistoryResponse.tags r).
Proof.
  unfold HistoryResponse.from_gateway_history_json. intros H.
  destruct (getitem body "data") as [|payload] eqn:E0; cbn [bind] in H;
    [discriminate|].
  destruct (getitem payload "timestamp") as [|tf] eqn:E1; cbn [bind] in H;
    [discriminate|].
  destruct (int tf) as [|rt] eqn:E2; cbn [bind] in H; [discriminate|].
  destruct (get payload "tags" (JObject [])) as [|tags_field] eqn:E3;
    cbn [bind] in H; [discriminate|].
  destruct (items tags_field) as [|entries] eqn:E4; cbn [bind] in H;
    [discriminate|].
  destruct (comprehension _ entries) as [|tags] eqn:E5; cbn [bind] in H;
    [discriminate|].
  destruct (getitem payload "gw_mac") as [|gw] eqn:E6; cbn [bind] in H;
    [discriminate|].
  destruct (get payload "coordinates" (JString "")) as [|co] eqn:E7;
    cbn [bind] in H; [discriminate|].
  injection H as <-.
  cbn [HistoryResponse.timestamp HistoryResponse.tags HistoryResponse.gw_mac
       HistoryResponse.coordinates].
  apply getitem_field in E0, E1, E6.
  apply comprehension_Return in E5.
  destruct tags_field as [| | | | | |ms]; try discriminate. injection E4 as <-.
  assert (Hentries : tags_of body = dict_of_members ms /\
                     (field payload "tags" = None \/
                      exists ms', field payload "tags" = Some (JObject ms'))).
  { destruct body as [| | | | | |top]; try discriminate. cbn [field] in E0.
    unfold tags_of. rewrite E0.
    destruct payload as [| | | | | |pms]; try discriminate.
    cbn [get field] in *.
    destruct (assoc (dict_of_members pms) "tags") as [v|].
    - injection E3 as ->. eauto.
    - injection E3 as <-. auto. }
  destruct Hentries as [Hentries Htags]. rewrite Hentries.
  exists payload, tf. repeat apply conj; auto.
  destruct payload as [| | | | | |pms]; try discriminate.
  cbn [get field] in *.
  destruct (assoc (dict_of_members pms) "coordinates"); now injection E7 as <-.
Qed.

End ResponseMore.

(** X2.  A decoded response has one record for every entry of the body's
    [tags] dict, in the dict's order and under the entry's key as [mac],
    each decoded against the response timestamp; there is none when the
    body has no [tags].  [gw_mac] is the body's, unconverted, and
    [coordinates] the body's, or the empty string when it has none. *)
Theorem decoded_response_mirrors_body body r :
  HistoryResponse.from_gateway_history_json body = Return r ->
  map TagData.mac (HistoryResponse.tags r) = map fst (tags_of body) /\
  Forall2
    (fun entry tag =>
       TagData.from_gateway_history_json_tag
         (fst entry) (snd entry) (Some (HistoryResponse.timestamp r))
       = Return tag)
    (tags_of body) (HistoryResponse.tags r) /\
  exists payload,
    field body "data" = Some payload /\
    (field payload "tags" = None -> HistoryResponse.tags r = []) /\
    field payload "gw_mac" = Some (HistoryResponse.gw_mac r) /\
    HistoryResponse.coordinates r =
      match field payload "coordinates" with
      | Some v => v
      | None => JString ""
      end.
Proof.
  intros H.
  destruct (from_gateway_history_json_fields _ _ H)
    as (payload & tf & Hdata & _ & _ & _ & Hgw & Hco & Hall).
  repeat apply conj.
  - clear -Hall. induction Hall as [|entry tag entries tags Htag _ IH];
      [reflexivity|].
    cbn [map]. f_equal; [|exact IH].
    destruct (from_gateway_history_json_tag_Return _ _ _ _ Htag)
      as (_ & _ & _ & _ & _ & _ & _ & _ & _ & Hmac & _).
    exact Hmac.
  - exact Hall.
  - exists payload. repeat apply conj; auto.
    intros Hnone.
    assert (Hempty : tags_of body = []).
    { destruct body as [| | | | | |top]; try discriminate. cbn [field] in Hdata.
      unfold tags_of. rewrite Hdata.
      destruct payload as [| | | | | |pms]; try reflexivity.
      cbn [field] in Hnone. now rewrite Hnone. }
    rewrite Hempty in Hall. now inversion Hall.
Qed.

Lemma decoded_response_mirrors_body_witness :
  map TagData.mac (HistoryResponse.tags example_response)
    = map fst (tags_of example_body) /\
  Forall2
    (fun entry tag =>
       TagData.from_gateway_history_json_tag
         (fst entry) (snd entry)
         (Some (HistoryResponse.timestamp example_response))
       = Return tag)
    (tags_of example_body) (HistoryResponse.tags example_response) /\
  exists payload,
    field example_body "data" = Some payload /\
    (field payload "tags" = None -> HistoryResponse.tags example_response = []) /\
    field payload "gw_mac" = Some (HistoryResponse.gw_mac example_response) /\
    HistoryResponse.coordinates example_response =
      match field payload "coordinates" with
      | Some v => v
      | None => JString ""
      end.
Proof.
  apply (decoded_response_mirrors_body example_body example_response).
  reflexivity.
Defined.

(** X3.  A body decodes exactly when it is well formed: [data] holds a dict
    with a [timestamp] that [int()] converts and with a [gw_mac], and
    [tags] is absent or a dict without a malformed entry.  [coordinates]
    is never needed. *)
Theorem decodes_iff_well_formed body :
  (exists r, HistoryResponse.from_gateway_history_json body = Return r)
  <-> well_formed_body body.
Proof.
  split.
  - intros (r & H).
    destruct (from_gateway_history_json_fields _ _ H)
      as (payload & tf & Hdata & Htf & Hint & Htags & Hgw & _ & Hall).
    exists payload, tf, (HistoryResponse.timestamp r).
    repeat apply conj; auto; [|congruence].
    destruct Htags as [Hnone|(ms & Hms)]; [now left|]. right.
    exists ms. split; [exact Hms|]. intros mac entry Hin Hm.
    assert (Hof : tags_of body = dict_of_members ms).
    { destruct body as [| | | | | |top]; try discriminate. cbn [field] in Hdata.
      unfold tags_of. rewrite Hdata.
      destruct payload as [| | | | | |pms]; try discriminate.
      cbn [field] in Hms. now rewrite Hms. }
    rewrite Hof in Hall.
    destruct (Forall2_In_left _ _ _ (mac, entry) Hall Hin) as (tag & _ & Htag).
    now apply (malformed_not_constructed _ _ _ _ Hm Htag).
  - intros (payload & tf & rt & Hdata & Htf & Hint & Htags & Hgw).
    unfold HistoryResponse.from_gateway_history_json.
    apply getitem_field in Hdata, Htf. rewrite Hdata. cbn [bind].
    rewrite Htf. cbn [bind]. rewrite Hint. cbn [bind].
    destruct payload as [| | | | | |pms]; try discriminate.
    cbn [get field] in *.
    destruct (assoc (dict_of_members pms) "gw_mac") as [gw|] eqn:Hgw';
      [|congruence].
    assert (Hcomp : exists entries tags,
              (let? tags_field :=
                 match assoc (dict_of_members pms) "tags" with
                 | Some v => Return v
                 | None => Return (JObject [])
                 end in items tags_field) = Return entries /\
              comprehension
                (fun entry =>
                   TagData.from_gateway_history_json_tag
                     (fst entry) (snd entry) (Some rt)) entries = Return tags).
    { destruct Htags as [Hnone|(ms & Hms & Hgood)].
      - rewrite Hnone. exists [], []. split; reflexivity.
      - rewrite Hms. cbn [bind items].
        destruct (comprehension_all_Return
                    (fun entry =>
                       TagData.from_gateway_history_json_tag
                         (fst entry) (snd entry) (Some rt))
                    (dict_of_members ms)) as (tags & Htags').
        + intros [mac entry] Hin.
          destruct (constructed_or_malformed mac entry (Some rt)) as [Hc|Hm];
            [exact Hc|].
          now apply Hgood in Hin.
        + eauto. }
    destruct Hcomp as (entries & tags & Hitems & Hcomp).
    destruct (assoc (dict_of_members pms) "tags") as [v|];
      cbn [bind] in Hitems |- *; rewrite Hitems; cbn [bind];
      rewrite Hcomp; cbn [bind getitem]; rewrite Hgw'; cbn [bind];
      destruct (assoc (dict_of_members pms) "coordinates"); cbn [bind]; eauto.
Qed.

(** X4.  Decoding raises [AttributeError] exactly when the body gets as far
    as its [tags] and finds something there that is not a dict; a [tags]
    that is null, in particular, is not taken for an absent one. *)
Theorem tags_not_a_dict_iff_AttributeError body :
  HistoryResponse.from_gateway_history_json body = Raise AttributeError <->
  exists payload timestamp_field response_timestamp v,
    field body "data" = Some payload /\
    field payload "timestamp" = Some timestamp_field /\
    int timestamp_field = Return response_timestamp /\
    field payload "tags" = Some v /\
    is_dict v = false.
Proof.
  assert (Hclass : ~ decode_error AttributeError).
  { unfold decode_error. intros [H|[H|[H|H]]]; discriminate H. }
  unfold HistoryResponse.from_gateway_history_json. split.
  - intros H.
    destruct (getitem body "data") as [e0|payload] eqn:E0; cbn [bind] in H.
    { injection H as ->. now apply getitem_Raise in E0. }
    destruct (getitem payload "timestamp") as [e1|tf] eqn:E1; cbn [bind] in H.
    { injection H as ->. now apply getitem_Raise in E1. }
    destruct (int tf) as [e2|rt] eqn:E2; cbn [bind] in H.
    { injection H as ->. now apply int_Raise in E2. }
    apply getitem_field in E0, E1.
    destruct payload as [| | | | | |pms]; try discriminate.
    cbn [get getitem field] in *.
    exists (JObject pms), tf, rt.
    destruct (assoc (dict_of_members pms) "tags") as [v|] eqn:Etags;
      cbn [bind] in H.
    + exists v. repeat apply conj; auto.
      destruct (items v) as [e4|entries] eqn:E4; cbn [bind] in H.
      { now apply items_Raise in E4. }
      exfalso.
      destruct (comprehension _ entries) as [e5|tags] eqn:E5; cbn [bind] in H.
      { injection H as ->. apply comprehension_Raise_inv in E5 as (a & _ & Ha).
        now apply from_gateway_history_json_tag_Raise in Ha. }
      destruct (assoc (dict_of_members pms) "gw_mac"); cbn [bind] in H;
        [|discriminate].
      destruct (assoc (dict_of_members pms) "coordinates"); discriminate.
    + exfalso. cbn [items bind comprehension] in H.
      destruct (assoc (dict_of_members pms) "gw_mac"); cbn [bind] in H;
        [|discriminate].
      destruct (assoc (dict_of_members pms) "coordinates"); discriminate.
  - intros (payload & tf & rt & v & Hdata & Htf & Hint & Htags & Hv).
    apply getitem_field in Hdata, Htf. rewrite Hdata. cbn [bind].
    rewrite Htf. cbn [bind]. rewrite Hint. cbn [bind].
    destruct payload as [| | | | | |pms]; try discriminate.
    cbn [get field] in *. rewrite Htags. cbn [bind].
    destruct v; try discriminate; reflexivity.
Qed.

(** ** The fetch, outcome by outcome *)

Section FetchMore.

Lemma fetch_Return (s : Api.session) host bearer_token timeout r :
  Api.async_get_gateway_history_data s host bearer_token timeout = Return r <->
  exists body,
    s (Api.history_request host bearer_token timeout) = Api.Response 200 (Return body) /\
    HistoryResponse.from_gateway_history_json body = Return r.
Proof.
  unfold Api.async_get_gateway_history_data, Api.try_body. split.
  - destruct (s _) as [e|status body]; [discriminate|].
    destruct (status =? 401); [discriminate|].
    destruct (Z.eqb_spec status 200) as [->|]; cbn [negb]; [|discriminate].
    destruct body as [e|body]; [discriminate|]. eauto.
  - intros (body & -> & Hr). exact Hr.
Qed.

Lemma fetch_Raise (s : Api.session) host bearer_token timeout e :
  Api.async_get_gateway_history_data s host bearer_token timeout = Raise e ->
  (exists e', e = Api.except_clauses e') \/
  (exists body,
     s (Api.history_request host bearer_token timeout)
       = Api.Response 200 (Return body) /\
     HistoryResponse.from_gateway_history_json body = Raise e).
Proof.
  unfold Api.async_get_gateway_history_data, Api.try_body.
  destruct (s _) as [e0|status body]; [intros [= <-]; eauto|].
  destruct (status =? 401); [intros [= <-]; left; now exists InvalidAuth|].
  destruct (Z.eqb_spec status 200) as [->|]; cbn [negb].
  - destruct body as [e0|body]; [intros [= <-]; eauto|]. eauto.
  - intros [= <-]. left.
    now exists (CannotConnect
                  ("Unexpected response from gateway: HTTP " +:+ str_of_int status)).
Qed.

End FetchMore.

(** X5.  The fetch returns a [HistoryResponse] exactly when the gateway
    answers with status 200, the body parses, and the parsed body decodes
    to that response; with any other status it returns nothing. *)
Theorem fetch_returns_iff_200_and_decoded
    (s : Api.session) host bearer_token timeout r :
  Api.async_get_gateway_history_data s host bearer_token timeout = Return r <->
  exists body,
    s (Api.history_request host bearer_token timeout) = Api.Response 200 (Return body) /\
    HistoryResponse.from_gateway_history_json body = Return r.
Proof. apply fetch_Return. Qed.

(** X6.  The fetch never lets a [TimeoutError] or a [ClientError] through:
    whether [session.get] raises it or the reading of the body does, it
    comes out as [CannotConnect]. *)
Theorem fetch_wraps_transport_errors (s : Api.session) host bearer_token timeout :
  Api.async_get_gateway_history_data s host bearer_token timeout <> Raise TimeoutError /\
  Api.async_get_gateway_history_data s host bearer_token timeout <> Raise ClientError.
Proof.
  assert (Hwrap : forall e, Api.except_clauses e <> TimeoutError /\
                            Api.except_clauses e <> ClientError).
  { intros []; split; discriminate. }
  assert (Hdecode : forall body e,
            HistoryResponse.from_gateway_history_json body = Raise e ->
            e <> TimeoutError /\ e <> ClientError).
  { intros body e He.
    destruct (from_gateway_history_json_Raise _ _ He) as [[-> | [-> | [-> | ->]]] | ->];
      split; discriminate. }
  split; intros H; apply fetch_Raise in H as [(e' & He')|(body & _ & Hb)].
  - symmetry in He'. now apply Hwrap in He'.
  - now apply Hdecode in Hb.
  - symmetry in He'. now apply Hwrap in He'.
  - now apply Hdecode in Hb.
Qed.

(** X7.  The fetch raises [InvalidAuth] exactly when the gateway answers
    with status 401, or the client library itself raises [InvalidAuth] (from
    [session.get], or while reading the body of a 200 response). *)
Theorem fetch_raises_InvalidAuth_iff (s : Api.session) host bearer_token timeout :
  Api.async_get_gateway_history_data s host bearer_token timeout = Raise InvalidAuth <->
  (exists body,
     s (Api.history_request host bearer_token timeout) = Api.Response 401 body) \/
  s (Api.history_request host bearer_token timeout) = Api.GetRaises InvalidAuth \/
  s (Api.history_request host bearer_token timeout)
    = Api.Response 200 (Raise InvalidAuth).
Proof.
  unfold Api.async_get_gateway_history_data, Api.try_body. split.
  - destruct (s _) as [e|status body].
    + destruct e; try discriminate. auto.
    + destruct (Z.eqb_spec status 401) as [->|]; [eauto|].
      destruct (Z.eqb_spec status 200) as [->|]; cbn [negb]; [|discriminate].
      destruct body as [e|body].
      * destruct e; try discriminate. auto.
      * intros H. apply from_gateway_history_json_Raise in H as [H| H];
          [unfold decode_error in H; intuition discriminate | discriminate].
  - intros [(body & ->)|[->| ->]]; reflexivity.
Qed.

(** X8.  Once the gateway has answered with status 200 and the body has
    parsed, whatever the fetch raises is the exception that decoding
    raised, one of [KeyError], [ValueError], [TypeError], [OverflowError]
    and [AttributeError]: a body that does not decode is never reported as
    [CannotConnect] or [InvalidAuth]. *)
Theorem undecodable_body_raises_decode_exception
    (s : Api.session) host bearer_token timeout body e :
  s (Api.history_request host bearer_token timeout) = Api.Response 200 (Return body) ->
  Api.async_get_gateway_history_data s host bearer_token timeout = Raise e ->
  HistoryResponse.from_gateway_history_json body = Raise e /\
  (decode_error e \/ e = AttributeError) /\
  e <> InvalidAuth /\
  forall msg, e <> CannotConnect msg.
Proof.
  intros Hs. unfold Api.async_get_gateway_history_data, Api.try_body.
  rewrite Hs. cbn. intros He. split; [exact He|].
  apply from_gateway_history_json_Raise in He.
  split; [exact He|].
  destruct He as [[-> | [-> | [-> | ->]]] | ->]; split; try intros msg; discriminate.
Qed.

Lemma undecodable_body_raises_decode_exception_witness :
  HistoryResponse.from_gateway_history_json null_tags_body = Raise AttributeError /\
  (decode_error AttributeError \/ AttributeError = AttributeError) /\
  AttributeError <> InvalidAuth /\
  forall msg, AttributeError <> CannotConnect msg.
Proof.
  apply (undecodable_body_raises_decode_exception
           (gateway_serving null_tags_body) "192.168.1.10" None None
           null_tags_body AttributeError); reflexivity.
Defined.

(** ** Polls, one and many *)

Section PollMore.

Import Coordinator.

Abbreviation cache := (gmap string TagData.t).

Lemma most_recent_snoc k l tag :
  most_recent k (l ++ [tag]) =
    if has_mac k tag then Some tag else most_recent k l.
Proof. unfold most_recent. rewrite rev_app_distr. reflexivity. Qed.

Lemma most_recent_app k l l' :
  most_recent k (l ++ l') =
    match most_recent k l' with
    | Some tag => Some tag
    | None => most_recent k l
    end.
Proof.
  induction l' as [|tag l' IH] using rev_ind.
  - now rewrite app_nil_r.
  - rewrite app_assoc, !most_recent_snoc. now destruct (has_mac k tag).
Qed.

Lemma most_recent_mac k l tag : most_recent k l = Some tag -> TagData.mac tag = k.
Proof.
  unfold most_recent. intros H. apply List.find_some in H as [_ H].
  now apply String.eqb_eq in H.
Qed.

(** Storing a list of records: each key ends up with the last record
    stored under it. *)
Lemma fold_store_lookup l (last : cache) k :
  fold_left store l last !! k =
    match most_recent k l with
    | Some tag => Some tag
    | None => last !! k
    end.
Proof.
  induction l as [|tag l IH] using rev_ind; [reflexivity|].
  rewrite fold_left_app, most_recent_snoc. cbn [fold_left].
  unfold store at 1, has_mac.
  destruct (String.eqb_spec (TagData.mac tag) k) as [<-|Hne].
  - apply lookup_insert_eq.
  - rewrite lookup_insert_ne by exact Hne. exact IH.
Qed.

(** A poll that returns: what it returns and what it leaves. *)
Lemma poll_Return (s : Api.session) self changed self' :
  _async_update_data s self = (Return changed, self') ->
  exists data,
    Api.async_get_gateway_history_data s (host self) (token self) None
      = Return data /\
    NoDup (map TagData.mac (HistoryResponse.tags data)) /\
    changed = List.filter (is_changed (last_tag_datas self)) (HistoryResponse.tags data) /\
    self' = {| host := host self;
               token := token self;
               last_tag_datas := fold_left store changed (last_tag_datas self) |}.
Proof.
  unfold _async_update_data.
  destruct (Api.async_get_gateway_history_data s (host self) (token self) None)
    as [e|data] eqn:Hfetch; [discriminate|].
  assert (Hnd : NoDup (map TagData.mac (HistoryResponse.tags data))).
  { apply fetch_Return in Hfetch as (body & _ & Hbody).
    exact (decoded_macs _ _ Hbody). }
  intros [= <- <-]. exists data.
  rewrite loop_changed, loop_cache by exact Hnd. auto.
Qed.

Lemma poll_cache_lookup (s : Api.session) self k :
  last_tag_datas (snd (_async_update_data s self)) !! k =
    match most_recent k (report (fst (_async_update_data s self))) with
    | Some tag => Some tag
    | None => last_tag_datas self !! k
    end.
Proof.
  destruct (_async_update_data s self) as [[e|changed] self'] eqn:Hpoll.
  - unfold _async_update_data in Hpoll.
    destruct (Api.async_get_gateway_history_data _ _ _ _); [|discriminate].
    now injection Hpoll as <- <-.
  - apply poll_Return in Hpoll as (data & _ & _ & _ & ->).
    cbn [fst snd report last_tag_datas]. apply fold_store_lookup.
Qed.

Lemma poll_keeps_settings (s : Api.session) self :
  host (snd (_async_update_data s self)) = host self /\
  token (snd (_async_update_data s self)) = token self.
Proof.
  unfold _async_update_data.
  destruct (Api.async_get_gateway_history_data _ _ _ _); split; reflexivity.
Qed.

End PollMore.

Section PollClaims.

Import Coordinator.

Abbreviation cache := (gmap string TagData.t).

(** X9.  A poll that returns reports the records of the fetched response
    that the change test selects, in the response's order and each mac at
    most once; afterwards [last_tag_datas] is the dict it was with exactly
    the reported records stored under their macs, and [host] and [token]
    are as they were. *)
Theorem poll_reports_changed_in_order (s : Api.session) self changed self' :
  _async_update_data s self = (Return changed, self') ->
  exists data,
    Api.async_get_gateway_history_data s (host self) (token self) None
      = Return data /\
    changed = List.filter (is_changed (last_tag_datas self)) (HistoryResponse.tags data) /\
    NoDup (map TagData.mac changed) /\
    last_tag_datas self' = fold_left store changed (last_tag_datas self) /\
    host self' = host self /\
    token self' = token self.
Proof.
  intros H. apply poll_Return in H as (data & Hfetch & Hnd & -> & ->).
  exists data. cbn [host token last_tag_datas].
  repeat apply conj; auto. now apply filter_macs_NoDup.
Qed.

Lemma poll_reports_changed_in_order_witness :
  exists data,
    Api.async_get_gateway_history_data
      (gateway_serving later_body)
      (host earlier_coordinator) (token earlier_coordinator) None
      = Return data /\
    [later_tag; second_tag]
      = List.filter (is_changed (last_tag_datas earlier_coordinator))
          (HistoryResponse.tags data) /\
    NoDup (map TagData.mac [later_tag; second_tag]) /\
    last_tag_datas later_coordinator
      = fold_left store [later_tag; second_tag]
          (last_tag_datas earlier_coordinator) /\
    host later_coordinator = host earlier_coordinator /\
    token later_coordinator = token earlier_coordinator.
Proof.
  apply (poll_reports_changed_in_order
           (gateway_serving later_body) earlier_coordinator
           [later_tag; second_tag] later_coordinator).
  vm_compute. reflexivity.
Defined.

(** X10.  The first poll of a new coordinator reports every record of the
    fetched response, in the response's order, and leaves each of them
    cached under its mac. *)
Theorem first_poll_reports_every_record
    (s : Api.session) entry_host entry_token data :
  Api.async_get_gateway_history_data
    s entry_host (Coordinator.or_None entry_token) None = Return data ->
  _async_update_data s (__init__ entry_host entry_token) =
    (Return (HistoryResponse.tags data),
     {| host := entry_host;
        token := Coordinator.or_None entry_token;
        last_tag_datas := fold_left store (HistoryResponse.tags data) ∅ |}) /\
  forall tag,
    In tag (HistoryResponse.tags data) ->
    fold_left store (HistoryResponse.tags data) (∅ : cache) !! TagData.mac tag
      = Some tag.
Proof.
  intros Hfetch.
  assert (Hnd : NoDup (map TagData.mac (HistoryResponse.tags data))).
  { apply fetch_Return in Hfetch as (body & _ & Hbody).
    exact (decoded_macs _ _ Hbody). }
  split; [|intros tag Hin; now apply fold_store_member].
  unfold _async_update_data, __init__. cbn [host token last_tag_datas].
  rewrite Hfetch, loop_changed, loop_cache by exact Hnd.
  assert (Hall : List.filter (is_changed (∅ : cache)) (HistoryResponse.tags data)
                 = HistoryResponse.tags data).
  { clear. induction (HistoryResponse.tags data) as [|tag tags IH];
      [reflexivity|].
    cbn [List.filter]. unfold is_changed at 1. rewrite lookup_empty.
    now rewrite IH. }
  now rewrite Hall.
Qed.

Lemma first_poll_reports_every_record_witness :
  _async_update_data (gateway_serving later_body) (__init__ "192.168.1.10" None) =
    (Return (HistoryResponse.tags later_response),
     {| host := "192.168.1.10";
        token := Coordinator.or_None None;
        last_tag_datas := fold_left store (HistoryResponse.tags later_response) ∅ |}) /\
  forall tag,
    In tag (HistoryResponse.tags later_response) ->
    fold_left store (HistoryResponse.tags later_response) (∅ : cache)
      !! TagData.mac tag = Some tag.
Proof.
  apply (first_poll_reports_every_record
           (gateway_serving later_body) "192.168.1.10" None later_response).
  reflexivity.
Defined.

(** X11.  After any number of polls, failed ones among them, the entry of
    [last_tag_datas] for a mac is the record most recently reported for
    that mac, and the entry it was before when none was reported; [host]
    and [token] are as they were.  For a coordinator started by [__init__]
    every entry is therefore a reported record, kept under its own mac. *)
Theorem polls_keep_most_recent_report :
  (forall ss self k,
     last_tag_datas (snd (polls ss self)) !! k =
       match most_recent k (reported (fst (polls ss self))) with
       | Some tag => Some tag
       | None => last_tag_datas self !! k
       end) /\
  (forall ss self,
     host (snd (polls ss self)) = host self /\
     token (snd (polls ss self)) = token self) /\
  (forall ss entry_host entry_token k,
     last_tag_datas (snd (polls ss (__init__ entry_host entry_token))) !! k =
       most_recent k (reported (fst (polls ss (__init__ entry_host entry_token))))) /\
  (forall ss entry_host entry_token k tag,
     last_tag_datas (snd (polls ss (__init__ entry_host entry_token))) !! k
       = Some tag ->
     TagData.mac tag = k /\
     In tag (reported (fst (polls ss (__init__ entry_host entry_token))))).
Proof.
  assert (Hlookup : forall ss self k,
     last_tag_datas (snd (polls ss self)) !! k =
       match most_recent k (reported (fst (polls ss self))) with
       | Some tag => Some tag
       | None => last_tag_datas self !! k
       end).
  { induction ss as [|s ss IH]; intros self k; [reflexivity|].
    cbn [polls fst snd]. unfold reported. cbn [flat_map].
    fold (reported (fst (polls ss (snd (_async_update_data s self))))).
    rewrite most_recent_app, IH.
    destruct (most_recent k (reported _)); [reflexivity|].
    apply poll_cache_lookup. }
  assert (Hinit : forall ss entry_host entry_token k,
     last_tag_datas (snd (polls ss (__init__ entry_host entry_token))) !! k =
       most_recent k (reported (fst (polls ss (__init__ entry_host entry_token))))).
  { intros ss h t k. rewrite Hlookup. cbn [__init__ last_tag_datas].
    rewrite lookup_empty. now destruct (most_recent k _). }
  repeat apply conj; [exact Hlookup | | exact Hinit |].
  - induction ss as [|s ss IH]; intros self; [split; reflexivity|].
    cbn [polls snd]. destruct (IH (snd (_async_update_data s self))) as [-> ->].
    apply poll_keeps_settings.
  - intros ss h t k tag H. rewrite Hinit in H. split.
    + exact (most_recent_mac _ _ _ H).
    + unfold most_recent in H. apply List.find_some in H as [H _].
      now apply in_rev in H.
Qed.

Lemma second_poll_reports_nothing_witness :
  _async_update_data (gateway_serving later_body) later_coordinator
    = (Return [], later_coordinator).
Proof.
  apply (second_poll_reports_nothing
           (gateway_serving later_body) earlier_coordinator
           [later_tag; second_tag] later_coordinator).
  vm_compute. reflexivity.
Defined.

Lemma malformed_entry_fails_poll_witness :
  exists e,
    _async_update_data (gateway_serving malformed_body) earlier_coordinator
      = (Raise e, earlier_coordinator) /\
    decode_error e.
Proof.
  apply (malformed_entry_fails_poll
           (gateway_serving malformed_body) earlier_coordinator
           malformed_body "77:88:99:AA:BB:CC" malformed_entry).
  - reflexivity.
  - vm_compute. auto.
  - apply (non_hex_data malformed_entry (JString "zz")); [reflexivity|].
    intros b Hb. vm_compute in Hb. discriminate Hb.
Defined.

End PollClaims.

Lemma polls_keep_most_recent_report_witness :
  TagData.mac later_tag = "11:22:33:44:55:66"%string /\
  In later_tag
     (reported
        (fst (Coordinator.polls
                [gateway_serving example_body;
                 gateway_answering 503 (Return example_body);
                 gateway_serving later_body]
                (Coordinator.__init__ "192.168.1.10" None)))).
Proof.
  apply (proj2 (proj2 (proj2 polls_keep_most_recent_report))
           [gateway_serving example_body;
            gateway_answering 503 (Return example_body);
            gateway_serving later_body]
           "192.168.1.10" None "11:22:33:44:55:66"%string later_tag).
  vm_compute. reflexivity.
Defined.

(** ** The config flow *)

Section StripMore.

Variable space : ascii -> bool.

Lemma lstrip_idempotent s : lstrip space (lstrip space s) = lstrip space s.
Proof.
  induction s as [|c s IH]; [reflexivity|].
  cbn [lstrip]. destruct (space c) eqn:Hc; [exact IH|].
  cbn [lstrip]. now rewrite Hc.
Qed.

Lemma lstrip_snoc s c :
  space c = false -> lstrip space (s ++ [c]) = lstrip space s ++ [c].
Proof.
  intros Hc. induction s as [|x s IH]; cbn [app lstrip].
  - now rewrite Hc.
  - destruct (space x); [exact IH | reflexivity].
Qed.

(** Trimming on the right keeps a list that is trimmed on the left so. *)
Lemma lstrip_rstrip s :
  lstrip space s = s -> lstrip space (rstrip space s) = rstrip space s.
Proof.
  destruct s as [|c s]; [reflexivity|].
  cbn [lstrip]. destruct (space c) eqn:Hc.
  - intros H. exfalso.
    destruct (lstrip_split space s) as (p & Hs & _).
    apply (f_equal (@length ascii)) in H, Hs.
    rewrite length_app in Hs. cbn [length] in H. lia.
  - intros _. unfold rstrip. cbn [rev].
    rewrite lstrip_snoc by exact Hc. rewrite rev_app_distr. cbn [rev app lstrip].
    now rewrite Hc.
Qed.

Lemma strip_chars_idempotent s :
  rstrip space (lstrip space (rstrip space (lstrip space s)))
  = rstrip space (lstrip space s).
Proof.
  rewrite lstrip_rstrip by apply lstrip_idempotent.
  unfold rstrip. now rewrite rev_involutive, lstrip_idempotent.
Qed.

End StripMore.

Lemma strip_idempotent s : strip (strip s) = strip s.
Proof.
  unfold strip. rewrite list_ascii_of_string_of_list_ascii.
  now rewrite strip_chars_idempotent.
Qed.

(** X14.  The token that [_async_validate] works with is [None] exactly
    when the input is no string or is whitespace only; otherwise it is the
    input trimmed, which is not empty and which trimming leaves as it is. *)
Theorem token_of_input_is_trimmed token_input :
  (ConfigFlow.token_of_input token_input = None <->
   (forall s, token_input <> Some (JString s)) \/
   exists s, token_input = Some (JString s) /\ all_space s = true) /\
  (forall token,
     ConfigFlow.token_of_input token_input = Some token ->
     token <> ""%string /\
     strip token = token /\
     truthy_str (Some token) = true /\
     exists s, token_input = Some (JString s) /\ token = strip s).
Proof.
  unfold ConfigFlow.token_of_input.
  destruct token_input as [[| | | |s| |]|];
    try (split; [split; [intros _; left; intros s; discriminate | reflexivity]
                | discriminate]).
  destruct (String.eqb_spec (strip s) "") as [Hempty|Hfull]; split.
  - split; [|reflexivity]. intros _. right. exists s. split; [reflexivity|].
    now apply strip_empty.
  - discriminate.
  - split; [discriminate|].
    intros [H|(s' & [= <-] & Hsp)]; [now destruct (H s)|].
    apply strip_empty in Hsp. contradiction.
  - intros token [= <-]. repeat apply conj.
    + exact Hfull.
    + apply strip_idempotent.
    + cbn [truthy_str]. apply String.eqb_neq in Hfull. now rewrite Hfull.
    + eauto.
Qed.

Lemma token_of_input_is_trimmed_witness :
  "s3cret"%string <> ""%string /\
  strip "s3cret" = "s3cret"%string /\
  truthy_str (Some "s3cret"%string) = true /\
  exists s, Some (JString "  s3cret ") = Some (JString s) /\ "s3cret"%string = strip s.
Proof.
  apply (proj2 (token_of_input_is_trimmed (Some (JString "  s3cret ")))
           "s3cret"%string).
  reflexivity.
Defined.

Section FlowClaims.

Import ConfigFlow.

(** The token of [_async_validate] passes a truth test unchanged. *)
Lemma token_of_input_truthy token_input :
  (if truthy_str (token_of_input token_input)
   then token_of_input token_input else None)
  = token_of_input token_input.
Proof.
  destruct (token_of_input token_input) as [token|] eqn:Htok; [|reflexivity].
  unfold token_of_input in Htok.
  destruct token_input as [[| | | |t| |]|]; try discriminate.
  destruct (String.eqb (strip t) "") eqn:Hne; [discriminate|].
  injection Htok as <-. cbn [truthy_str]. now rewrite Hne.
Qed.

(** The two shapes of what [_async_validate] hands back. *)
Lemma validation_cases (ha : unique_id_calls) (s : Api.session) input :
  (exists title data,
     _async_validate ha s input = (Some (async_create_entry title data), []))
  \/ (exists code, _async_validate ha s input = (None, [("base"%string, code)])).
Proof.
  unfold _async_validate.
  destruct (Api.async_get_gateway_history_data _ _ _ _) as [e|resp];
    cbn [bind]; [right; eauto|].
  destruct (ha _ _) as [e|[]]; cbn [bind]; [right; eauto|].
  destruct (HistoryResponse.gw_mac_suffix resp) as [e|suffix];
    cbn [bind]; [right; eauto|].
  left. eauto.
Qed.



(** X16.  [_async_validate] ends in one of two ways.  Either the fetch
    returned, Home Assistant's unique-id calls returned and the gateway's
    [gw_mac] has a suffix: then it hands back an entry titled
    ["Ruuvi Gateway "] and the suffix, with the host and the trimmed token
    (no token when the input had none, or whitespace only) as data, and no
    errors.  Or it hands back no entry and exactly one error, under
    ["base"], which is one of ["cannot_connect"], ["invalid_auth"] and
    ["unknown"]. *)
Theorem validation_entry_or_error (ha : unique_id_calls) (s : Api.session) input :
  (exists resp suffix,
     Api.async_get_gateway_history_data
       s (CONF_HOST input) (token_of_input (CONF_TOKEN input)) None = Return resp /\
     ha (HistoryResponse.gw_mac resp) (CONF_HOST input) = Return tt /\
     HistoryResponse.gw_mac_suffix resp = Return suffix /\
     _async_validate ha s input =
       (Some (async_create_entry
                (codes "Ruuvi Gateway " ++ suffix)
                {| data_host := CONF_HOST input;
                   data_token := token_of_input (CONF_TOKEN input) |}),
        []))
  \/
  (exists code,
     _async_validate ha s input = (None, [("base"%string, code)]) /\
     In code ["cannot_connect"; "invalid_auth"; "unknown"]%string).
Proof.
  assert (Hcode : forall e,
            In (except_clauses e) ["cannot_connect"; "invalid_auth"; "unknown"]%string).
  { intros []; cbn; tauto. }
  unfold _async_validate. rewrite token_of_input_truthy.
  destruct (Api.async_get_gateway_history_data _ _ _ _) as [e|resp] eqn:Hfetch;
    cbn [bind]; [right; eauto|].
  destruct (ha _ _) as [e|[]] eqn:Hha; cbn [bind]; [right; eauto|].
  destruct (HistoryResponse.gw_mac_suffix resp) as [e|suffix] eqn:Hsuffix;
    cbn [bind]; [right; eauto|].
  left. exists resp, suffix. repeat apply conj; auto.
Qed.

(** X17.  The coordinator that is set up from the data of an entry which
    [_async_validate] created starts with an empty [last_tag_datas], and
    its polls send the request that the validation sent: same URL, same
    [Authorization] header or none. *)
Theorem coordinator_repeats_validated_request
    (ha : unique_id_calls) (s : Api.session) input title data errs :
  _async_validate ha s input = (Some (async_create_entry title data), errs) ->
  Api.history_request
    (Coordinator.host (Coordinator.__init__ (data_host data) (data_token data)))
    (Coordinator.token (Coordinator.__init__ (data_host data) (data_token data)))
    None
  = _async_validate_request input /\
  Coordinator.last_tag_datas
    (Coordinator.__init__ (data_host data) (data_token data)) = ∅.
Proof.
  intros H. split; [|reflexivity].
  unfold _async_validate in H.
  destruct (Api.async_get_gateway_history_data _ _ _ _) as [e|resp];
    cbn [bind] in H; [discriminate|].
  destruct (ha _ _) as [e|[]]; cbn [bind] in H; [discriminate|].
  destruct (HistoryResponse.gw_mac_suffix resp) as [e|suffix];
    cbn [bind] in H; [discriminate|].
  injection H as <- <- <-.
  unfold _async_validate_request, Coordinator.__init__, Coordinator.or_None.
  cbn [Coordinator.host Coordinator.token data_host data_token].
  now rewrite !token_of_input_truthy.
Qed.

Lemma coordinator_repeats_validated_request_witness :
  Api.history_request
    (Coordinator.host (Coordinator.__init__ "192.168.1.10" (Some "s3cret"%string)))
    (Coordinator.token (Coordinator.__init__ "192.168.1.10" (Some "s3cret"%string)))
    None
  = _async_validate_request example_input /\
  Coordinator.last_tag_datas
    (Coordinator.__init__ "192.168.1.10" (Some "s3cret"%string)) = ∅.
Proof.
  apply (coordinator_repeats_validated_request
           ha_accepts (gateway_serving example_body) example_input
           (codes "Ruuvi Gateway EE:FF")
           {| data_host := "192.168.1.10"; data_token := Some "s3cret"%string |}
           []).
  reflexivity.
Defined.

(** X18.  The steps of the flow.  Without input the user step shows the
    form with the schema at hand and no errors, and validates nothing.
    With input it hands back the entry when validation made one, and
    otherwise shows the form again with the one error of the validation.
    The DHCP step validates nothing either: it raises what Home
    Assistant's unique-id calls raise, and else shows the form, without
    errors, on the schema that has the discovered address as the default
    host. *)
Theorem flow_steps
    (ha_dhcp : dhcp_unique_id_calls) (ha : unique_id_calls) (s : Api.session)
    (config_schema : schema) :
  async_step_user ha s config_schema None
    = async_show_form "user" config_schema None /\
  (forall input,
     (exists title data,
        _async_validate ha s input = (Some (async_create_entry title data), []) /\
        async_step_user ha s config_schema (Some input)
          = async_create_entry title data)
     \/
     (exists code,
        _async_validate ha s input = (None, [("base"%string, code)]) /\
        async_step_user ha s config_schema (Some input)
          = async_show_form "user" config_schema (Some [("base"%string, code)]))) /\
  (forall discovery_info,
     async_step_dhcp ha_dhcp ha s discovery_info =
       match ha_dhcp (macaddress discovery_info) (ip discovery_info) with
       | Raise e => Raise e
       | Return _ =>
           Return
             (async_show_form "user"
                (get_config_schema_with_default_host (ip discovery_info)) None)
       end).
Proof.
  repeat apply conj.
  - reflexivity.
  - intros input. unfold async_step_user.
    destruct (validation_cases ha s input)
      as [(title & data & ->)|(code & ->)]; cbn [fst snd or_None]; eauto.
  - intros info. unfold async_step_dhcp.
    now destruct (ha_dhcp _ _).
Qed.

End FlowClaims.

(** ** The gateway's suffix *)

Section SuffixMore.

Lemma upper_char_ascii c :
  is_ascii c = true ->
  exists n,
    upper_char c = [n] /\ (n < 128)%N /\ ~ (97 <= n <= 122)%N /\
    (is_ascii_lower c = false -> n = code c).
Proof.
  destruct c as [[] [] [] [] [] [] [] []]; intros H; try discriminate H;
    (eexists; split; [cbv; reflexivity|];
     split; [reflexivity|]; split; [lia|]; intros Hl;
     solve [reflexivity | vm_compute in Hl; discriminate Hl]).
Qed.

Lemma upper_ascii l :
  forallb is_ascii l = true ->
  length (upper l) = length l /\
  Forall (fun n => (n < 128)%N /\ ~ (97 <= n <= 122)%N) (upper l).
Proof.
  induction l as [|c l IH]; [split; [reflexivity | constructor]|].
  cbn [forallb]. intros [Hc Hl]%andb_prop.
  destruct (IH Hl) as [Hlen Hall].
  destruct (upper_char_ascii c Hc) as (n & Hn & Hlt & Hup & _).
  unfold upper in *. cbn [flat_map]. rewrite Hn. cbn [app length].
  split; [now rewrite Hlen | constructor; auto].
Qed.

Lemma last_chars_length n l : length (last_chars n l) = Nat.min n (length l).
Proof. unfold last_chars. rewrite length_skipn. lia. Qed.

Lemma last_chars_app n p q : length q = n -> last_chars n (p ++ q) = q.
Proof.
  intros Hq. unfold last_chars. rewrite length_app, Hq.
  replace (length p + n - n)%nat with (length p) by lia.
  rewrite List.skipn_app, List.skipn_all, Nat.sub_diag. reflexivity.
Qed.

Lemma last_chars_short n l : (length l <= n)%nat -> last_chars n l = l.
Proof.
  intros Hl. unfold last_chars.
  replace (length l - n)%nat with 0%nat by lia. reflexivity.
Qed.

Lemma forallb_skipn {A} (f : A -> bool) n l :
  forallb f l = true -> forallb f (skipn n l) = true.
Proof.
  rewrite !forallb_forall. intros H x Hx. apply H.
  rewrite <- (firstn_skipn n l). apply in_or_app. now right.
Qed.

End SuffixMore.

(** X19.  [gw_mac_suffix] has a value exactly when [gw_mac] is a string.
    The value is then the upper case of the string's last five characters,
    or of the whole string when it is shorter, whatever comes before them;
    for an ASCII [gw_mac] it has as many characters as were taken, none of
    them a lower-case letter. *)
Theorem gw_mac_suffix_of_str r :
  ((exists suffix, HistoryResponse.gw_mac_suffix r = Return suffix) <->
   exists s, HistoryResponse.gw_mac r = JString s) /\
  (forall s,
     HistoryResponse.gw_mac r = JString s ->
     exists suffix,
       HistoryResponse.gw_mac_suffix r = Return suffix /\
       (forall p q,
          list_ascii_of_string s = p ++ q -> length q = 5%nat ->
          suffix = upper q) /\
       ((length (list_ascii_of_string s) <= 5)%nat ->
        suffix = upper (list_ascii_of_string s)) /\
       (forallb is_ascii (list_ascii_of_string s) = true ->
        length suffix = Nat.min 5 (length (list_ascii_of_string s)) /\
        Forall (fun n => (n < 128)%N /\ ~ (97 <= n <= 122)%N) suffix)).
Proof.
  unfold HistoryResponse.gw_mac_suffix. split.
  - destruct (HistoryResponse.gw_mac r); split;
      try (intros (x & Hx); discriminate Hx); eauto.
  - intros s ->. eexists. split; [reflexivity|]. repeat apply conj.
    + intros p q -> Hq. now rewrite last_chars_app.
    + intros Hs. now rewrite last_chars_short.
    + intros Hs.
      destruct (upper_ascii (last_chars 5 (list_ascii_of_string s))) as [Hlen Hall].
      { now apply forallb_skipn. }
      split; [|exact Hall]. now rewrite Hlen, last_chars_length.
Qed.

Lemma gw_mac_suffix_of_str_witness :
  exists suffix,
    HistoryResponse.gw_mac_suffix example_response = Return suffix /\
    (forall p q,
       list_ascii_of_string "AA:BB:CC:DD:EE:FF" = p ++ q -> length q = 5%nat ->
       suffix = upper q) /\
    ((length (list_ascii_of_string "AA:BB:CC:DD:EE:FF") <= 5)%nat ->
     suffix = upper (list_ascii_of_string "AA:BB:CC:DD:EE:FF")) /\
    (forallb is_ascii (list_ascii_of_string "AA:BB:CC:DD:EE:FF") = true ->
     length suffix = Nat.min 5 (length (list_ascii_of_string "AA:BB:CC:DD:EE:FF")) /\
     Forall (fun n => (n < 128)%N /\ ~ (97 <= n <= 122)%N) suffix).
Proof.
  apply (proj2 (gw_mac_suffix_of_str example_response) "AA:BB:CC:DD:EE:FF"%string).
  reflexivity.
Defined.

(** ** Decoding what the gateway spells *)

Section RoundTrip.

Lemma fromhex_chars_hex_of_byte b rest :
  fromhex_chars (hex_of_byte b ++ rest) = option_map (cons b) (fromhex_chars rest).
Proof. destruct b; reflexivity. Qed.

Lemma fromhex_chars_hex data :
  fromhex_chars (flat_map hex_of_byte data) = Some data.
Proof.
  induction data as [|b data IH]; [reflexivity|].
  cbn [flat_map]. now rewrite fromhex_chars_hex_of_byte, IH.
Qed.

Lemma fromhex_bytes_hex data : fromhex (JString (bytes_hex data)) = Return data.
Proof.
  unfold fromhex, bytes_hex.
  now rewrite list_ascii_of_string_of_list_ascii, fromhex_chars_hex.
Qed.

End RoundTrip.

(** X20.  Decoding loses nothing of an entry that spells its fields the
    plain way: when [timestamp] and [rssi] are integers and [data] is the
    hex spelling of some bytes, the record has exactly that timestamp,
    that rssi and those bytes, the key as mac, and the age that the
    response timestamp gives. *)
Theorem plain_entry_round_trip mac entry response_timestamp rssi timestamp data :
  field entry "timestamp" = Some (JInt timestamp) ->
  field entry "rssi" = Some (JInt rssi) ->
  field entry "data" = Some (JString (bytes_hex data)) ->
  TagData.from_gateway_history_json_tag mac entry response_timestamp =
    Return
      {| TagData.mac := mac;
         TagData.rssi := rssi;
         TagData.timestamp := timestamp;
         TagData.data := data;
         TagData.age_seconds :=
           match response_timestamp with
           | Some rt => if rt =? 0 then None else Some (rt - timestamp)
           | None => None
           end |}.
Proof.
  intros Hts Hrssi Hdata. apply getitem_field in Hts, Hrssi, Hdata.
  unfold TagData.from_gateway_history_json_tag.
  rewrite Hts. cbn [bind int]. rewrite Hrssi. cbn [bind int].
  rewrite Hdata. cbn [bind]. rewrite fromhex_bytes_hex. cbn [bind].
  destruct response_timestamp as [rt|]; [|reflexivity].
  cbn [truthy_int option_map]. now destruct (rt =? 0).
Qed.

Lemma plain_entry_round_trip_witness :
  TagData.from_gateway_history_json_tag
    "11:22:33:44:55:66"
    (JObject
       [("rssi"%string, JInt (-70));
        ("timestamp"%string, JInt 95);
        ("data"%string, JString "0201060303aafe")])
    (Some 100) = Return example_tag.
Proof.
  apply (plain_entry_round_trip
           "11:22:33:44:55:66"
           (JObject
              [("rssi"%string, JInt (-70));
               ("timestamp"%string, JInt 95);
               ("data"%string, JString "0201060303aafe")])
           (Some 100) (-70) 95 [x02; x01; x06; x03; x03; xaa; xfe]%byte);
    reflexivity.
Defined.
